(** * Jobly: the partial-update SQL fragment builder and its callers

    A shallow embedding of [helpers/sql.js] ([sqlForPartialUpdate]), of
    the two model methods that call it ([User.update] in [models/user.js],
    [Job.update] in [models/job.js]), of the other methods of the two
    models and of the guards of [middleware/auth.js].

    JavaScript objects are shared, mutable and passed by reference, so the
    embedding keeps them in a store and the functions take references;
    calls to the database driver are recorded in the same state.  Arrays
    and records that a function builds and returns fresh are plain values. *)

From Stdlib Require Import ZArith Ascii String.
From stdpp Require Import base list strings pretty.

Open Scope string_scope.
Open Scope list_scope.

(** ** JavaScript values *)

(** The scalar values an update request carries, plus [JObj] for every
    other value (objects, functions): such a value is always truthy and is
    known here only through the string its conversion to a string gives.
    [JNum] carries the integers that print in plain decimal notation. *)
Inductive JsValue : Type :=
| JUndefined
| JNull
| JBool (b : bool)
| JNum (n : Z)
| JStr (s : string)
| JObj (repr : string).

(** ToBoolean. *)
Definition truthy (v : JsValue) : bool :=
  match v with
  | JUndefined | JNull => false
  | JBool b => b
  | JNum n => negb (n =? 0)%Z
  | JStr s => negb (String.eqb s EmptyString)
  | JObj _ => true
  end.

(** ToString, as a template literal and [+] on a string apply it.  On a
    number it gives the digits of the integer, which is what JavaScript
    prints for the integers a double holds exactly ([safe_number]
    below). *)
Definition ToString (v : JsValue) : string :=
  match v with
  | JUndefined => "undefined"
  | JNull => "null"
  | JBool true => "true"
  | JBool false => "false"
  | JNum n => pretty n
  | JStr s => s
  | JObj repr => repr
  end.

(** [a || b]. *)
Definition js_or (a b : JsValue) : JsValue := if truthy a then a else b.

(** The one-character string holding a double quote. *)
Definition dquote : string := String "034"%char EmptyString.

(** ** Objects *)

(** An object is its own enumerable properties, listed in the order
    [Object.keys] enumerates them, and the properties it inherits along its
    prototype chain (nearest first). *)
Record JsObject : Type := {
  own : list (string * JsValue);
  inherited : list (string * JsValue)
}.

Fixpoint assoc (k : string) (ps : list (string * JsValue)) : option JsValue :=
  match ps with
  | [] => None
  | (k', v) :: ps' => if String.eqb k k' then Some v else assoc k ps'
  end.

(** [o[k]]: the own property, else the inherited one, else [undefined]. *)
Definition lookup_prop (o : JsObject) (k : string) : JsValue :=
  match assoc k (own o) with
  | Some v => v
  | None =>
      match assoc k (inherited o) with
      | Some v => v
      | None => JUndefined
      end
  end.

(** [o[k] = v] on properties: an existing own property keeps its place, a
    new one goes last (keys that are array indices are not modelled). *)
Fixpoint assign (k : string) (v : JsValue) (ps : list (string * JsValue))
  : list (string * JsValue) :=
  match ps with
  | [] => [(k, v)]
  | (k', v') :: ps' =>
      if String.eqb k k' then (k, v) :: ps' else (k', v') :: assign k v ps'
  end.

(** [delete o[k]]. *)
Fixpoint remove_key (k : string) (ps : list (string * JsValue))
  : list (string * JsValue) :=
  match ps with
  | [] => []
  | (k', v') :: ps' =>
      if String.eqb k k' then ps' else (k', v') :: remove_key k ps'
  end.

Definition own_keys (o : JsObject) : list string := (own o).*1.
Definition own_values (o : JsObject) : list JsValue := (own o).*2.

(** No key occurs twice among the own properties of an object. *)
Definition wf_object (o : JsObject) : Prop := NoDup (own_keys o).

(** What an object written as a literal, or parsed from JSON, inherits
    from [Object.prototype] in Node: built-in functions, and the
    [__proto__] accessor that yields the prototype itself. *)
Definition native (name : string) : JsValue :=
  JObj ("function " +:+ name +:+ "() { [native code] }").

Definition Object_prototype : list (string * JsValue) :=
  [ ("constructor", native "Object");
    ("__defineGetter__", native "__defineGetter__");
    ("__defineSetter__", native "__defineSetter__");
    ("hasOwnProperty", native "hasOwnProperty");
    ("__lookupGetter__", native "__lookupGetter__");
    ("__lookupSetter__", native "__lookupSetter__");
    ("isPrototypeOf", native "isPrototypeOf");
    ("propertyIsEnumerable", native "propertyIsEnumerable");
    ("toString", native "toString");
    ("valueOf", native "valueOf");
    ("__proto__", JObj "[object Object]");
    ("toLocaleString", native "toLocaleString") ].

(** [{ k1: v1, ... }] with distinct keys, none of them an array index. *)
Definition literal (ps : list (string * JsValue)) : JsObject :=
  {| own := ps; inherited := Object_prototype |}.

(** ** Errors, the store and the monad of computations *)

(** The error classes of [expressError.js] that the code here throws, and
    [ExternalError] for what the libraries it calls may throw. *)
Inductive JsError : Type :=
| BadRequestError (message : string)
| NotFoundError (message : string)
| ExternalError (message : string).

Inductive Completion (A : Type) : Type :=
| Normal (a : A)
| Throw (e : JsError).
Arguments Normal {A} a.
Arguments Throw {A} e.

Definition loc : Type := nat.

(** The state a call runs in: the objects behind every reference, the
    next free reference, and the statements sent to the database so far
    (oldest first), each with its bound values. *)
Record World : Type := {
  objs : loc -> JsObject;
  next : loc;
  queries : list (string * list JsValue)
}.

Definition Js (A : Type) : Type := World -> World * Completion A.

#[global] Instance Js_ret : MRet Js := λ A a w, (w, Normal a).

#[global] Instance Js_bind : MBind Js := λ A B f c w,
  match c w with
  | (w', Normal a) => f a w'
  | (w', Throw e) => (w', Throw e)
  end.

Definition throw {A : Type} (e : JsError) : Js A := λ w, (w, Throw e).

(** [Object.keys(o)] and [Object.values(o)]. *)
Definition Object_keys (o : loc) : Js (list string) :=
  λ w, (w, Normal (own_keys (objs w o))).

Definition Object_values (o : loc) : Js (list JsValue) :=
  λ w, (w, Normal (own_values (objs w o))).

(** [o[k]] through a reference. *)
Definition get_prop (o : loc) (k : string) : Js JsValue :=
  λ w, (w, Normal (lookup_prop (objs w o) k)).

Definition store (l : loc) (o : JsObject) (h : loc -> JsObject) : loc -> JsObject :=
  λ l', if Nat.eqb l' l then o else h l'.

(** [o[k] = v] through a reference. *)
Definition set_prop (o : loc) (k : string) (v : JsValue) : Js unit :=
  λ w,
    let obj := objs w o in
    let obj' := {| own := assign k v (own obj); inherited := inherited obj |} in
    ({| objs := store o obj' (objs w); next := next w; queries := queries w |},
     Normal tt).

(** An object literal evaluated at run time: a fresh object. *)
Definition new_object (ps : list (string * JsValue)) : Js loc :=
  λ w,
    ({| objs := store (next w) (literal ps) (objs w);
        next := S (next w);
        queries := queries w |},
     Normal (next w)).

(** [arr.map((x, idx) => f(x, idx))], elements numbered from [idx]. *)
Fixpoint array_map_from {A B : Type} (f : A -> nat -> Js B) (idx : nat)
  (arr : list A) : Js (list B) :=
  match arr with
  | [] => mret []
  | x :: arr' =>
      y ← f x idx;
      ys ← array_map_from f (S idx) arr';
      mret (y :: ys)
  end.

Definition array_map {A B : Type} (f : A -> nat -> Js B) (arr : list A)
  : Js (list B) := array_map_from f 0 arr.

(** ** helpers/sql.js *)

Record SqlFragment : Type := {
  setCols : string;
  values : list JsValue
}.

Definition sqlForPartialUpdate (dataToUpdate jsToSql : loc) : Js SqlFragment :=
  keys ← Object_keys dataToUpdate;
  if Nat.eqb (length keys) 0 then throw (BadRequestError "No data")
  else
    cols ← array_map (λ colName idx,
              translated ← get_prop jsToSql colName;
              mret (dquote +:+ ToString (js_or translated (JStr colName))
                    +:+ dquote +:+ "=$" +:+ pretty (idx + 1)))
            keys;
    vals ← Object_values dataToUpdate;
    mret {| setCols := String.concat ", " cols; values := vals |}.

(** ** models/user.js and models/job.js *)

(** The template literal [querySql] of [User.update], as a function of the
    two expressions it interpolates. *)
Definition User_update_querySql (setCols usernameVarIdx : string) : string :=
  "UPDATE users 
                      SET " +:+ setCols +:+ " 
                      WHERE username = " +:+ usernameVarIdx +:+ " 
                      RETURNING username,
                                first_name AS " +:+ dquote +:+ "firstName" +:+ dquote +:+ ",
                                last_name AS " +:+ dquote +:+ "lastName" +:+ dquote +:+ ",
                                email,
                                is_admin AS " +:+ dquote +:+ "isAdmin" +:+ dquote.

(** The template literal [querySql] of [Job.update]. *)
Definition Job_update_querySql (setCols idVarIdx : string) : string :=
  "UPDATE jobs 
                      SET " +:+ setCols +:+ " 
                      WHERE id = " +:+ idVarIdx +:+ " 
                      RETURNING id, 
                                title, 
                                salary, 
                                equity,
                                company_handle AS " +:+ dquote +:+ "companyHandle" +:+ dquote.

Section Models.

(** [bcrypt.hash(data, rounds)] awaited: the hash, or the error the
    library rejects with. *)
Variable bcrypt_hash : JsValue -> JsValue -> Completion JsValue.

(** [BCRYPT_WORK_FACTOR] of [config.js]. *)
Variable BCRYPT_WORK_FACTOR : JsValue.

(** What the database answers to the last statement of a log of
    statements: the rows of the result, or the error the driver rejects
    with. *)
Variable db_response :
  list (string * list JsValue) -> Completion (list JsObject).

(** An awaited library call whose outcome is already known. *)
Definition await {A : Type} (c : Completion A) : Js A := λ w, (w, c).

(** [await db.query(sql, params)], giving [result.rows]. *)
Definition db_query (sql : string) (params : list JsValue)
  : Js (list JsObject) :=
  λ w,
    let log := queries w ++ [(sql, params)] in
    ({| objs := objs w; next := next w; queries := log |}, db_response log).

Definition User_update (username : JsValue) (data : loc) : Js JsObject :=
  password ← get_prop data "password";
  _ ← (if truthy password then
         plain ← get_prop data "password";
         hashed ← await (bcrypt_hash plain BCRYPT_WORK_FACTOR);
         set_prop data "password" hashed
       else mret tt);
  jsToSql ← new_object [ ("firstName", JStr "first_name");
                         ("lastName", JStr "last_name");
                         ("isAdmin", JStr "is_admin") ];
  frag ← sqlForPartialUpdate data jsToSql;
  let usernameVarIdx := "$" +:+ pretty (length (values frag) + 1) in
  let querySql := User_update_querySql (setCols frag) usernameVarIdx in
  rows ← db_query querySql (values frag ++ [username]);
  match head rows with
  | None => throw (NotFoundError ("No user: " +:+ ToString username))
  | Some user =>
      mret {| own := remove_key "password" (own user);
              inherited := inherited user |}
  end.

Definition Job_update (id : JsValue) (data : loc) : Js JsObject :=
  jsToSql ← new_object [];
  frag ← sqlForPartialUpdate data jsToSql;
  let idVarIdx := "$" +:+ pretty (length (values frag) + 1) in
  let querySql := Job_update_querySql (setCols frag) idVarIdx in
  rows ← db_query querySql (values frag ++ [id]);
  match head rows with
  | None => throw (NotFoundError ("No job: " +:+ ToString id))
  | Some job => mret job
  end.

End Models.

(** ** Vocabulary of the statements *)

(** The column name the callback of [sqlForPartialUpdate] interpolates for
    a key: [jsToSql[colName] || colName], converted to a string. *)
Definition resolved_column (m : JsObject) (colName : string) : string :=
  ToString (js_or (lookup_prop m colName) (JStr colName)).

(** The string the callback returns for the key at index [idx]. *)
Definition segment (m : JsObject) (idx : nat) (colName : string) : string :=
  dquote +:+ resolved_column m colName +:+ dquote +:+ "=$" +:+ pretty (idx + 1).

(** A state holding an update request at reference 0 and a translation
    table at reference 1, nothing sent to the database yet. *)
Definition world_of (d m : JsObject) : World :=
  {| objs := λ l, if Nat.eqb l 0 then d else m; next := 2; queries := [] |}.

(** [sqlForPartialUpdate(d, m)] called on two objects. *)
Definition call_sqlForPartialUpdate (d m : JsObject) : Completion SqlFragment :=
  snd (sqlForPartialUpdate 0 1 (world_of d m)).

(** [s] between double quotes. *)
Definition quoted (s : string) : string := dquote +:+ s +:+ dquote.

(** The column name as the specification words it, to compare with
    [resolved_column]: the table's entry when the key is in the table, the
    key itself when it is not. *)
Definition spec_column (m : JsObject) (key : string) : string :=
  match assoc key (own m) with
  | Some v => ToString v
  | None => key
  end.

(** The column resolution of the specification, claimed of one call: every
    key's segment quotes [spec_column]. *)
Definition resolves_as_specified (w : World) (dataToUpdate jsToSql : loc) : Prop :=
  ∀ i key, own_keys (objs w dataToUpdate) !! i = Some key →
    ∃ frag segs,
      sqlForPartialUpdate dataToUpdate jsToSql w = (w, Normal frag) ∧
      setCols frag = String.concat ", " segs ∧
      length segs = length (own_keys (objs w dataToUpdate)) ∧
      segs !! i = Some (quoted (spec_column (objs w jsToSql) key)
                        +:+ "=$" +:+ pretty (i + 1)).

(** The translation table [User.update] passes to the builder. *)
Definition User_jsToSql : list (string * JsValue) :=
  [ ("firstName", JStr "first_name");
    ("lastName", JStr "last_name");
    ("isAdmin", JStr "is_admin") ].

(** An object after [o.password = h]. *)
Definition with_password (o : JsObject) (h : JsValue) : JsObject :=
  {| own := assign "password" h (own o); inherited := inherited o |}.

(** Whether a character occurs in a string. *)
Fixpoint occurs (c : ascii) (s : string) : bool :=
  match s with
  | EmptyString => false
  | String c' s' => Ascii.eqb c c' || occurs c s'
  end.

(** A statement and the values bound to it line up for a request [d]
    resolved through [table]: the statement reads [before], the segments
    joined, [between], the placeholder numbered one past the number of
    values, [after], and these three texts hold no dollar sign, so that
    the statement has no placeholder but those of the segments and that
    last one; the bound values are the request's values followed by
    [ident]; segment [i] carries placeholder [i + 1] and bound value [i] is
    what the request holds under key [i]. *)
Definition placeholders_aligned (d table : JsObject)
    (before between after : string) (ident : JsValue)
    (sql : string) (params : list JsValue) : Prop :=
  ∃ segs vals,
    sql = before +:+ String.concat ", " segs +:+ between
          +:+ "$" +:+ pretty (length vals + 1) +:+ after ∧
    occurs "$" before = false ∧
    occurs "$" between = false ∧
    occurs "$" after = false ∧
    params = vals ++ [ident] ∧
    length segs = length (own_keys d) ∧
    length vals = length (own_keys d) ∧
    params !! length vals = Some ident ∧
    length params = length vals + 1 ∧
    ∀ i key, own_keys d !! i = Some key →
      segs !! i = Some (dquote +:+ resolved_column table key +:+ dquote
                        +:+ "=$" +:+ pretty (i + 1)) ∧
      params !! i = Some (lookup_prop d key).

(** Stand-ins for the two libraries, to run the callers on concrete
    inputs: a hash that only accepts strings and marks its result, and a
    database in which no row matches. *)
Definition sample_hash (plain rounds : JsValue) : Completion JsValue :=
  match plain with
  | JStr s => Normal (JStr ("$2b$" +:+ ToString rounds +:+ "$" +:+ s))
  | _ => Throw (ExternalError "data must be a string or Buffer")
  end.

Definition sample_db (log : list (string * list JsValue))
  : Completion (list JsObject) := Normal [].

(** A state holding one request at reference 0. *)
Definition sample_world : World :=
  world_of (literal [("firstName", JStr "Aliya"); ("password", JStr "pw")])
           (literal []).

(** ** The statements of the other model methods *)

(** The statement of [User.authenticate]. *)
Definition User_authenticate_sql : string :=
  "SELECT username,
                  password,
                  first_name AS " +:+ dquote +:+ "firstName" +:+ dquote +:+ ",
                  last_name AS " +:+ dquote +:+ "lastName" +:+ dquote +:+ ",
                  email,
                  is_admin AS " +:+ dquote +:+ "isAdmin" +:+ dquote +:+ "
           FROM users
           WHERE username = $1".

(** The duplicate check and the insertion of [User.register]. *)
Definition User_register_check_sql : string :=
  "SELECT username
           FROM users
           WHERE username = $1".

Definition User_register_insert_sql : string :=
  "INSERT INTO users
           (username,
            password,
            first_name,
            last_name,
            email,
            is_admin)
           VALUES ($1, $2, $3, $4, $5, $6)
           RETURNING username, first_name AS " +:+ dquote +:+ "firstName" +:+ dquote +:+ ", last_name AS " +:+ dquote +:+ "lastName" +:+ dquote +:+ ", email, is_admin AS " +:+ dquote +:+ "isAdmin" +:+ dquote.

(** The statements of [User.findAll], [User.get] and [User.remove]. *)
Definition User_findAll_sql : string :=
  "SELECT username,
                  first_name AS " +:+ dquote +:+ "firstName" +:+ dquote +:+ ",
                  last_name AS " +:+ dquote +:+ "lastName" +:+ dquote +:+ ",
                  email,
                  is_admin AS " +:+ dquote +:+ "isAdmin" +:+ dquote +:+ "
           FROM users
           ORDER BY username".

Definition User_get_sql : string :=
  "SELECT username,
                  first_name AS " +:+ dquote +:+ "firstName" +:+ dquote +:+ ",
                  last_name AS " +:+ dquote +:+ "lastName" +:+ dquote +:+ ",
                  email,
                  is_admin AS " +:+ dquote +:+ "isAdmin" +:+ dquote +:+ "
           FROM users
           WHERE username = $1".

Definition User_remove_sql : string :=
  "DELETE
           FROM users
           WHERE username = $1
           RETURNING username".

(** The statement of [Job.create]. *)
Definition Job_create_sql : string :=
  "INSERT INTO jobs (title,
                             salary,
                             equity,
                             company_handle)
           VALUES ($1, $2, $3, $4)
           RETURNING id, title, salary, equity, company_handle AS " +:+ dquote +:+ "companyHandle" +:+ dquote.

(** The initial value of [query] in [Job.findAll]. *)
Definition Job_findAll_select : string :=
  "SELECT j.id,
                        j.title,
                        j.salary,
                        j.equity,
                        j.company_handle AS " +:+ dquote +:+ "companyHandle" +:+ dquote +:+ ",
                        c.name AS " +:+ dquote +:+ "companyName" +:+ dquote +:+ "
                 FROM jobs j 
                   LEFT JOIN companies AS c ON c.handle = j.company_handle".

(** The two statements of [Job.get] and the statement of [Job.remove]. *)
Definition Job_get_sql : string :=
  "SELECT id,
                  title,
                  salary,
                  equity,
                  company_handle AS " +:+ dquote +:+ "companyHandle" +:+ dquote +:+ "
           FROM jobs
           WHERE id = $1".

Definition Job_get_company_sql : string :=
  "SELECT handle,
                  name,
                  description,
                  num_employees AS " +:+ dquote +:+ "numEmployees" +:+ dquote +:+ ",
                  logo_url AS " +:+ dquote +:+ "logoUrl" +:+ dquote +:+ "
           FROM companies
           WHERE handle = $1".

Definition Job_remove_sql : string :=
  "DELETE
           FROM jobs
           WHERE id = $1
           RETURNING id".

(** ** The other methods of models/user.js and models/job.js *)

(** [v === undefined] and [v === true]. *)
Definition is_undefined (v : JsValue) : bool :=
  match v with JUndefined => true | _ => false end.

Definition is_true (v : JsValue) : bool :=
  match v with JBool true => true | _ => false end.

(** The numbers [ToString] prints as JavaScript does: the integers
    strictly between -2^53 and 2^53, which a double holds exactly and
    prints digit for digit.  Every other value is printed as it is. *)
Definition safe_number (v : JsValue) : Prop :=
  match v with
  | JNum n => (- 2 ^ 53 < n < 2 ^ 53)%Z
  | _ => True
  end.

(** Whether [needle] occurs in [s] as a run of consecutive characters. *)
Fixpoint contains (needle s : string) : bool :=
  String.prefix needle s ||
  match s with
  | EmptyString => false
  | String _ s' => contains needle s'
  end.

(** A row after [delete row[k]]. *)
Definition without (k : string) (o : JsObject) : JsObject :=
  {| own := remove_key k (own o); inherited := inherited o |}.

(** The object [Job.get] returns: its properties other than [company],
    and apart from them what its [company] property holds ([None] for
    [undefined]). *)
Record JobWithCompany : Type := {
  job_row : JsObject;
  company : option JsObject
}.

(** [UnauthorizedError] of [expressError.js]; no message when the
    constructor is called without one. *)
Inductive Unauthorized : Type :=
| UnauthorizedError (message : option string).

(** How code that may also throw [UnauthorizedError] completes. *)
Inductive AuthCompletion (A : Type) : Type :=
| Done (c : Completion A)
| Refused (e : Unauthorized).
Arguments Done {A} c.
Arguments Refused {A} e.

Section MoreModels.

Variable bcrypt_hash : JsValue -> JsValue -> Completion JsValue.

(** [bcrypt.compare(data, encrypted)] awaited. *)
Variable bcrypt_compare : JsValue -> JsValue -> Completion JsValue.

Variable BCRYPT_WORK_FACTOR : JsValue.

Variable db_response :
  list (string * list JsValue) -> Completion (list JsObject).

Definition User_authenticate (username password : JsValue)
  : World -> World * AuthCompletion JsObject :=
  λ w,
    match db_query db_response User_authenticate_sql [username] w with
    | (w', Throw e) => (w', Done (Throw e))
    | (w', Normal rows) =>
        match head rows with
        | Some user =>
            match bcrypt_compare password (lookup_prop user "password") with
            | Throw e => (w', Done (Throw e))
            | Normal isValid =>
                if is_true isValid
                then (w', Done (Normal (without "password" user)))
                else (w', Refused (UnauthorizedError
                                     (Some "Invalid username/password")))
            end
        | None =>
            (w', Refused (UnauthorizedError (Some "Invalid username/password")))
        end
    end.

(** [User.register], called on the object it destructures. *)
Definition User_register (user : loc) : Js (option JsObject) :=
  username ← get_prop user "username";
  password ← get_prop user "password";
  firstName ← get_prop user "firstName";
  lastName ← get_prop user "lastName";
  email ← get_prop user "email";
  isAdmin ← get_prop user "isAdmin";
  duplicateCheck ← db_query db_response User_register_check_sql [username];
  match head duplicateCheck with
  | Some _ =>
      throw (BadRequestError ("Duplicate username: " +:+ ToString username))
  | None =>
      hashedPassword ← await (bcrypt_hash password BCRYPT_WORK_FACTOR);
      rows ← db_query db_response User_register_insert_sql
               [username; hashedPassword; firstName; lastName; email; isAdmin];
      mret (head rows)
  end.

Definition User_findAll : Js (list JsObject) :=
  db_query db_response User_findAll_sql [].

Definition User_get (username : JsValue) : Js JsObject :=
  rows ← db_query db_response User_get_sql [username];
  match head rows with
  | None => throw (NotFoundError ("No user: " +:+ ToString username))
  | Some user => mret user
  end.

Definition User_remove (username : JsValue) : Js unit :=
  rows ← db_query db_response User_remove_sql [username];
  match head rows with
  | None => throw (NotFoundError ("No user: " +:+ ToString username))
  | Some _ => mret tt
  end.

Definition Job_create (data : loc) : Js (option JsObject) :=
  title ← get_prop data "title";
  salary ← get_prop data "salary";
  equity ← get_prop data "equity";
  companyHandle ← get_prop data "companyHandle";
  rows ← db_query db_response Job_create_sql
           [title; salary; equity; companyHandle];
  mret (head rows).

(** [Job.findAll]; [None] is a call without argument, for which the
    default [{}] is built. *)
Definition Job_findAll (searchFilters : option loc) : Js (list JsObject) :=
  filters ← match searchFilters with
            | Some l => mret l
            | None => new_object []
            end;
  minSalary ← get_prop filters "minSalary";
  hasEquity ← get_prop filters "hasEquity";
  title ← get_prop filters "title";
  let query := Job_findAll_select in
  let whereExpressions : list string := [] in
  let queryValues : list JsValue := [] in
  let '(queryValues, whereExpressions) :=
    if negb (is_undefined minSalary) then
      let queryValues := queryValues ++ [minSalary] in
      (queryValues,
       whereExpressions ++ ["salary >= $" +:+ pretty (length queryValues)])
    else (queryValues, whereExpressions) in
  let whereExpressions :=
    if is_true hasEquity then whereExpressions ++ ["equity > 0"]
    else whereExpressions in
  let '(queryValues, whereExpressions) :=
    if negb (is_undefined title) then
      let queryValues :=
        queryValues ++ [JStr ("%" +:+ ToString title +:+ "%")] in
      (queryValues,
       whereExpressions ++ ["title ILIKE $" +:+ pretty (length queryValues)])
    else (queryValues, whereExpressions) in
  let query :=
    if Nat.ltb 0 (length whereExpressions)
    then query +:+ " WHERE " +:+ String.concat " AND " whereExpressions
    else query in
  let query := query +:+ " ORDER BY title" in
  db_query db_response query queryValues.

Definition Job_get (id : JsValue) : Js JobWithCompany :=
  jobRows ← db_query db_response Job_get_sql [id];
  match head jobRows with
  | None => throw (NotFoundError ("No job: " +:+ ToString id))
  | Some job =>
      companiesRows ← db_query db_response Job_get_company_sql
                        [lookup_prop job "companyHandle"];
      mret {| job_row := without "company" (without "companyHandle" job);
              company := head companiesRows |}
  end.

Definition Job_remove (id : JsValue) : Js unit :=
  rows ← db_query db_response Job_remove_sql [id];
  match head rows with
  | None => throw (NotFoundError ("No job: " +:+ ToString id))
  | Some _ => mret tt
  end.

End MoreModels.

(** ** middleware/auth.js *)

(** A value that may be an object of the store: what [res.locals.user]
    holds. *)
Inductive JsAny : Type :=
| Prim (v : JsValue)
| Ref (l : loc).

Definition truthy_any (x : JsAny) : bool :=
  match x with
  | Prim v => truthy v
  | Ref _ => true
  end.

(** [x.isAdmin] and [x.username] on a truthy [x]: read from the object, or
    [undefined] on a primitive, which has neither property. *)
Definition prop_of (x : JsAny) (k : string) : Js JsValue :=
  match x with
  | Ref l => get_prop l k
  | Prim _ => mret JUndefined
  end.

(** [v === req.params.username], the route parameter being a string, or
    [undefined] on a route without it. *)
Definition same_as_param (v : JsValue) (param : option string) : bool :=
  match v, param with
  | JStr s, Some p => String.eqb s p
  | JUndefined, None => true
  | _, _ => false
  end.

(** The call a middleware makes: [next()] or [next(err)]. *)
Inductive NextCall : Type :=
| Next
| NextError (err : Unauthorized).

(** What [jwt.verify] returns: a payload decoded from JSON, a fresh
    object, or the payload as a string. *)
Inductive JwtPayload : Type :=
| PayloadObject (ps : list (string * JsValue))
| PayloadString (s : string).

(** White space and line terminators among the code units below 256, of
    which a header value is made. *)
Definition js_space (c : ascii) : bool :=
  let n := nat_of_ascii c in
  Nat.eqb n 9 || Nat.eqb n 10 || Nat.eqb n 11 || Nat.eqb n 12
  || Nat.eqb n 13 || Nat.eqb n 32 || Nat.eqb n 160.

Fixpoint trim_start (s : string) : string :=
  match s with
  | EmptyString => EmptyString
  | String c s' => if js_space c then trim_start s' else s
  end.

(** [s.trim()]. *)
Definition trim (s : string) : string :=
  String.rev (trim_start (String.rev (trim_start s))).

(** [s.replace(/^[Bb]earer /, "")]. *)
Definition strip_bearer (s : string) : string :=
  match s with
  | String c rest =>
      if (Ascii.eqb c "B" || Ascii.eqb c "b") && String.prefix "earer " rest
      then String.substring 6 (String.length rest - 6) rest
      else s
  | EmptyString => s
  end.

Section Middleware.

(** [jwt.verify(token, key)]. *)
Variable jwt_verify : string -> JsValue -> Completion JwtPayload.

(** [SECRET_KEY] of [config.js]. *)
Variable SECRET_KEY : JsValue.

(** [authenticateJWT], on [req.headers] ([None] when undefined) and the
    current [res.locals.user]; gives the new [res.locals.user] and the
    call made.  A truthy header that is no string has no [replace]: the
    error is caught like one of [jwt.verify]. *)
Definition authenticateJWT (headers : option loc) (user : JsAny)
  : Js (JsAny * NextCall) :=
  authHeader ← match headers with
               | Some h => get_prop h "authorization"
               | None => mret JUndefined
               end;
  if truthy authHeader then
    match authHeader with
    | JStr s =>
        let token := trim (strip_bearer s) in
        match jwt_verify token SECRET_KEY with
        | Normal (PayloadObject ps) => l ← new_object ps; mret (Ref l, Next)
        | Normal (PayloadString p) => mret (Prim (JStr p), Next)
        | Throw _ => mret (user, Next)
        end
    | _ => mret (user, Next)
    end
  else mret (user, Next).

End Middleware.

Definition ensureLoggedIn (user : JsAny) : Js NextCall :=
  if negb (truthy_any user) then mret (NextError (UnauthorizedError None))
  else mret Next.

Definition ensureAdmin (user : JsAny) : Js NextCall :=
  if negb (truthy_any user) then mret (NextError (UnauthorizedError None))
  else
    isAdmin ← prop_of user "isAdmin";
    if negb (truthy isAdmin) then mret (NextError (UnauthorizedError None))
    else mret Next.

Definition ensureCorrectUserOrAdmin (user : JsAny) (username_param : option string)
  : Js NextCall :=
  if truthy_any user then
    isAdmin ← prop_of user "isAdmin";
    if truthy isAdmin then mret Next
    else
      username ← prop_of user "username";
      if same_as_param username username_param then mret Next
      else mret (NextError (UnauthorizedError None))
  else mret (NextError (UnauthorizedError None)).

(** A database stand-in that answers the last statement of the log by
    its text, from a list of answers; no row when the text is not listed. *)
Definition scripted_db (answers : list (string * list JsObject))
    (log : list (string * list JsValue)) : Completion (list JsObject) :=
  match last log with
  | Some (sql, _) =>
      match List.find (λ a, String.eqb (fst a) sql) answers with
      | Some a => Normal (snd a)
      | None => Normal []
      end
  | None => Normal []
  end.

(** Sample rows: a job, its company, and a user with a stored hash. *)
Definition sample_job : JsObject :=
  literal [("id", JNum 7); ("title", JStr "Engineer");
           ("companyHandle", JStr "acme")].

Definition sample_company : JsObject :=
  literal [("handle", JStr "acme"); ("name", JStr "Acme")].

Definition sample_user : JsObject :=
  literal [("username", JStr "u1"); ("password", JStr "$2b$12$pw");
           ("isAdmin", JBool false)].

(** A stand-in for [bcrypt.compare] matching [sample_hash]. *)
Definition sample_compare (plain encrypted : JsValue) : Completion JsValue :=
  match plain, encrypted with
  | JStr p, JStr e => Normal (JBool (String.eqb ("$2b$12$" +:+ p) e))
  | _, _ => Throw (ExternalError "data and hash must be strings")
  end.

(** A stand-in for [jwt.verify] that accepts one token, and a state with
    three header objects carrying that token in three spellings. *)
Definition sample_verify (token : string) (key : JsValue)
  : Completion JwtPayload :=
  if String.eqb token "t0k3n"
  then Normal (PayloadObject [("username", JStr "a1"); ("isAdmin", JBool true)])
  else Throw (ExternalError "invalid token").

Definition sample_headers : World :=
  {| objs := λ l,
       literal [("authorization",
                 JStr match l with
                      | 0 => "Bearer t0k3n"
                      | 1 => "bearer t0k3n"
                      | _ => "t0k3n"
                      end)];
     next := 3;
     queries := [] |}.

(** ** The builder, run *)

Lemma array_map_from_reads {A B : Type} (f : A → nat → Js B)
    (g : nat → A → B) (w : World) :
  (∀ x idx, f x idx w = (w, Normal (g idx x))) →
  ∀ arr idx,
    array_map_from f idx arr w = (w, Normal (imap (λ j, g (idx + j)) arr)).
Proof.
  intros Hf arr. induction arr as [|x arr IH]; intros idx; simpl.
  - reflexivity.
  - unfold mbind, Js_bind. rewrite Hf, IH. unfold mret, Js_ret.
    rewrite Nat.add_0_r. do 3 f_equal.
    apply imap_ext. intros j y _. simpl. f_equal. lia.
Qed.

Lemma callback_reads (w : World) (jsToSql : loc) (colName : string) (idx : nat) :
  (translated ← get_prop jsToSql colName;
   mret (dquote +:+ ToString (js_or translated (JStr colName))
         +:+ dquote +:+ "=$" +:+ pretty (idx + 1))) w
  = (w, Normal (segment (objs w jsToSql) idx colName)).
Proof. reflexivity. Qed.

(** One equation for the whole function: the state comes back as it was,
    and the completion is read off the two objects. *)
Lemma sqlForPartialUpdate_run (w : World) (dataToUpdate jsToSql : loc) :
  sqlForPartialUpdate dataToUpdate jsToSql w =
  (w, match own (objs w dataToUpdate) with
      | [] => Throw (BadRequestError "No data")
      | _ :: _ =>
          Normal {| setCols := String.concat ", "
                      (imap (segment (objs w jsToSql))
                            (own_keys (objs w dataToUpdate)));
                    values := own_values (objs w dataToUpdate) |}
      end).
Proof.
  unfold sqlForPartialUpdate, Object_keys, Object_values, array_map.
  unfold mbind at 1. unfold Js_bind at 1.
  unfold own_keys at 1 2.
  destruct (own (objs w dataToUpdate)) as [|p ps] eqn:Hown; [reflexivity|].
  cbn [fmap list_fmap length Nat.eqb].
  unfold mbind at 1. unfold Js_bind at 1.
  rewrite (array_map_from_reads _ (segment (objs w jsToSql)) w)
    by (intros; apply callback_reads).
  unfold mbind, Js_bind, mret, Js_ret.
  unfold own_keys, own_values. rewrite Hown. reflexivity.
Qed.

Lemma assoc_lookup (ps : list (string * JsValue)) (i : nat) (k : string)
    (v : JsValue) :
  NoDup ps.*1 → ps !! i = Some (k, v) → assoc k ps = Some v.
Proof.
  revert i. induction ps as [|[k' v'] ps IH]; intros i Hnd Hi; [done|].
  rewrite fmap_cons in Hnd. apply NoDup_cons in Hnd as [Hnotin Hnd].
  cbn [assoc]. destruct i as [|i]; simpl in Hi.
  - injection Hi as -> ->. by rewrite String.eqb_refl.
  - destruct (String.eqb k k') eqn:Hk.
    + apply String.eqb_eq in Hk as ->. exfalso. apply Hnotin.
      apply list_elem_of_lookup. exists i.
      by rewrite list_lookup_fmap, Hi.
    + by apply (IH i).
Qed.

Lemma lookup_prop_own (o : JsObject) (i : nat) (k : string) (v : JsValue) :
  wf_object o → own o !! i = Some (k, v) → lookup_prop o k = v.
Proof.
  intros Hwf Hi. unfold lookup_prop.
  by rewrite (assoc_lookup _ i k v Hwf Hi).
Qed.

Lemma own_at_key (o : JsObject) (i : nat) (k : string) :
  own_keys o !! i = Some k → ∃ v, own o !! i = Some (k, v).
Proof.
  unfold own_keys. rewrite list_lookup_fmap.
  destruct (own o !! i) as [[k' v]|]; simpl; [|done].
  intros [= ->]. by exists v.
Qed.

(** ** Placeholders and values line up *)

(** C1. For a non-empty update request, the call returns a record whose
    [setCols] is the join with comma-and-space of as many segments as the
    request has keys, whose [values] has as many entries, and at every
    index [i] the segment is the quoted column of the [i]-th key followed
    by the placeholder numbered [i + 1], while the [i]-th value is the one
    the request holds under that same key. *)
Theorem sqlForPartialUpdate_aligned (w : World) (dataToUpdate jsToSql : loc) :
  own (objs w dataToUpdate) ≠ [] →
  wf_object (objs w dataToUpdate) →
  ∃ frag segs,
    sqlForPartialUpdate dataToUpdate jsToSql w = (w, Normal frag) ∧
    setCols frag = String.concat ", " segs ∧
    length segs = length (own_keys (objs w dataToUpdate)) ∧
    length (values frag) = length (own_keys (objs w dataToUpdate)) ∧
    ∀ i key, own_keys (objs w dataToUpdate) !! i = Some key →
      segs !! i = Some (dquote +:+ resolved_column (objs w jsToSql) key
                        +:+ dquote +:+ "=$" +:+ pretty (i + 1)) ∧
      values frag !! i = Some (lookup_prop (objs w dataToUpdate) key).
Proof.
  intros Hne Hwf. rewrite sqlForPartialUpdate_run.
  destruct (own (objs w dataToUpdate)) as [|p ps] eqn:Hown; [done|].
  eexists _, _. split; [reflexivity|]. cbn [setCols values].
  split; [reflexivity|]. split; [apply length_imap|].
  split; [unfold own_values, own_keys; by rewrite !length_fmap|].
  intros i key Hi. split.
  - rewrite list_lookup_imap, Hi. reflexivity.
  - destruct (own_at_key _ _ _ Hi) as [v Hv].
    unfold own_values. rewrite list_lookup_fmap, Hv. simpl.
    by rewrite (lookup_prop_own _ _ _ _ Hwf Hv).
Qed.

Lemma sqlForPartialUpdate_aligned_witness :
  ∃ frag segs,
    sqlForPartialUpdate 0 1
      (world_of (literal [("firstName", JStr "Aliya"); ("age", JNum 32)])
                (literal [("firstName", JStr "first_name")]))
    = (world_of (literal [("firstName", JStr "Aliya"); ("age", JNum 32)])
                (literal [("firstName", JStr "first_name")]), Normal frag) ∧
    setCols frag = String.concat ", " segs ∧
    length segs = 2 ∧
    length (values frag) = 2 ∧
    ∀ i key, ["firstName"; "age"] !! i = Some key →
      segs !! i = Some (dquote +:+
                        resolved_column (literal [("firstName", JStr "first_name")]) key
                        +:+ dquote +:+ "=$" +:+ pretty (i + 1)) ∧
      values frag !! i =
        Some (lookup_prop (literal [("firstName", JStr "Aliya"); ("age", JNum 32)]) key).
Proof.
  apply (sqlForPartialUpdate_aligned
           (world_of (literal [("firstName", JStr "Aliya"); ("age", JNum 32)])
                     (literal [("firstName", JStr "first_name")])) 0 1).
  - simpl. discriminate.
  - apply (bool_decide_unpack _). vm_compute. exact I.
Defined.

(** ** The empty request *)

(** C2. A request with no keys makes the call throw the bad-request error
    with message "No data", whatever the translation table holds; no
    record is returned, and the state is the one the call started in. *)
Theorem sqlForPartialUpdate_empty (w : World) (dataToUpdate jsToSql : loc) :
  own (objs w dataToUpdate) = [] →
  sqlForPartialUpdate dataToUpdate jsToSql w
  = (w, Throw (BadRequestError "No data")).
Proof. intros Hown. rewrite sqlForPartialUpdate_run. by rewrite Hown. Qed.

Lemma sqlForPartialUpdate_empty_witness :
  sqlForPartialUpdate 0 1
    (world_of (literal []) (literal [("firstName", JStr "first_name")]))
  = (world_of (literal []) (literal [("firstName", JStr "first_name")]),
     Throw (BadRequestError "No data")).
Proof.
  apply (sqlForPartialUpdate_empty
           (world_of (literal []) (literal [("firstName", JStr "first_name")]))
           0 1).
  reflexivity.
Defined.

(** ** Totality *)

(** C8. On every state and every pair of arguments the call completes:
    it returns a record or throws the "No data" error, and nothing else. *)
Theorem sqlForPartialUpdate_total (w : World) (dataToUpdate jsToSql : loc) :
  (∃ frag, sqlForPartialUpdate dataToUpdate jsToSql w = (w, Normal frag)) ∨
  sqlForPartialUpdate dataToUpdate jsToSql w
  = (w, Throw (BadRequestError "No data")).
Proof.
  rewrite sqlForPartialUpdate_run.
  destruct (own (objs w dataToUpdate)); [by right|left; by eexists].
Qed.

(** ** Purity *)

(** C6. The call leaves the state as it found it (no object changed, no
    reference allocated, nothing sent to the database), a second call
    gives the same completion as the first, and the completion is the same
    in any state that holds the same two objects. *)
Theorem sqlForPartialUpdate_pure (w : World) (dataToUpdate jsToSql : loc) :
  ∃ r,
    sqlForPartialUpdate dataToUpdate jsToSql w = (w, r) ∧
    sqlForPartialUpdate dataToUpdate jsToSql
      (fst (sqlForPartialUpdate dataToUpdate jsToSql w)) = (w, r) ∧
    ∀ w' d' m',
      objs w' d' = objs w dataToUpdate →
      objs w' m' = objs w jsToSql →
      sqlForPartialUpdate d' m' w' = (w', r).
Proof.
  eexists. split; [apply sqlForPartialUpdate_run|]. split.
  - rewrite (sqlForPartialUpdate_run w). cbn [fst].
    apply sqlForPartialUpdate_run.
  - intros w' d' m' Hd Hm. rewrite sqlForPartialUpdate_run, Hd, Hm.
    reflexivity.
Qed.

Lemma sqlForPartialUpdate_pure_witness :
  sqlForPartialUpdate 0 1
    (world_of (literal [("f1", JStr "v1")]) (literal [("f1", JStr "f1")]))
  = sqlForPartialUpdate 0 1
      (fst (sqlForPartialUpdate 0 1
         (world_of (literal [("f1", JStr "v1")]) (literal [("f1", JStr "f1")])))).
Proof.
  destruct (sqlForPartialUpdate_pure
              (world_of (literal [("f1", JStr "v1")]) (literal [("f1", JStr "f1")]))
              0 1) as (r & H1 & H2 & _).
  rewrite H2. exact H1.
Defined.

(** ** Column names *)

Lemma append_assoc (a b c : string) : (a +:+ b) +:+ c = a +:+ b +:+ c.
Proof.
  induction a as [|x a IH]; [reflexivity|].
  change (String x ((a +:+ b) +:+ c) = String x (a +:+ b +:+ c)).
  by rewrite IH.
Qed.

Lemma truthy_JStr (s : string) : s ≠ EmptyString → truthy (JStr s) = true.
Proof. intros Hs. simpl. destruct s; [done|reflexivity]. Qed.

Lemma resolved_column_translated (m : JsObject) (key s : string) :
  lookup_prop m key = JStr s → s ≠ EmptyString → resolved_column m key = s.
Proof.
  intros Hm Hs. unfold resolved_column, js_or.
  by rewrite Hm, (truthy_JStr s Hs).
Qed.

Lemma resolved_column_fallback (m : JsObject) (key : string) :
  truthy (lookup_prop m key) = false → resolved_column m key = key.
Proof. intros Hm. unfold resolved_column, js_or. by rewrite Hm. Qed.

Lemma lookup_prop_absent (m : JsObject) (key : string) :
  assoc key (own m) = None → assoc key (inherited m) = None →
  lookup_prop m key = JUndefined.
Proof. intros Ho Hi. unfold lookup_prop. by rewrite Ho, Hi. Qed.

(** The segments of a call on a request that has a key at index [i]. *)
Lemma sqlForPartialUpdate_segments (w : World) (dataToUpdate jsToSql : loc)
    (i : nat) (key : string) :
  own_keys (objs w dataToUpdate) !! i = Some key →
  ∃ frag segs,
    sqlForPartialUpdate dataToUpdate jsToSql w = (w, Normal frag) ∧
    setCols frag = String.concat ", " segs ∧
    length segs = length (own_keys (objs w dataToUpdate)) ∧
    values frag = own_values (objs w dataToUpdate) ∧
    segs = imap (segment (objs w jsToSql)) (own_keys (objs w dataToUpdate)) ∧
    segs !! i = Some (segment (objs w jsToSql) i key).
Proof.
  intros Hi. rewrite sqlForPartialUpdate_run.
  destruct (own (objs w dataToUpdate)) as [|p ps] eqn:Hown.
  { unfold own_keys in Hi. by rewrite Hown in Hi. }
  eexists _, _. split; [reflexivity|]. cbn [setCols values].
  split; [reflexivity|]. split; [apply length_imap|].
  split; [reflexivity|]. split; [reflexivity|].
  by rewrite list_lookup_imap, Hi.
Qed.

(** C3, as amended. For every key of a non-empty request the segment is
    the column name between double quotes; the column name is the table's
    entry when reading the table at the key gives a non-empty string, and
    the key itself when that reading gives a falsy value, as it does when
    the table has the key neither as its own nor as an inherited property
    or holds the empty string under it. *)
Theorem sqlForPartialUpdate_column (w : World) (dataToUpdate jsToSql : loc)
    (i : nat) (key : string) :
  own_keys (objs w dataToUpdate) !! i = Some key →
  ∃ frag segs col,
    sqlForPartialUpdate dataToUpdate jsToSql w = (w, Normal frag) ∧
    setCols frag = String.concat ", " segs ∧
    length segs = length (own_keys (objs w dataToUpdate)) ∧
    segs !! i = Some (dquote +:+ col +:+ dquote +:+ "=$" +:+ pretty (i + 1)) ∧
    (∀ s, lookup_prop (objs w jsToSql) key = JStr s → s ≠ EmptyString →
          col = s) ∧
    (truthy (lookup_prop (objs w jsToSql) key) = false → col = key) ∧
    (assoc key (own (objs w jsToSql)) = None →
     assoc key (inherited (objs w jsToSql)) = None → col = key).
Proof.
  intros Hi.
  destruct (sqlForPartialUpdate_segments w dataToUpdate jsToSql i key Hi)
    as (frag & segs & Hrun & Hcols & Hlen & _ & _ & Hseg).
  exists frag, segs, (resolved_column (objs w jsToSql) key).
  repeat split; try assumption.
  - apply resolved_column_translated.
  - apply resolved_column_fallback.
  - intros Ho Hinh. apply resolved_column_fallback.
    by rewrite (lookup_prop_absent _ _ Ho Hinh).
Qed.

Lemma sqlForPartialUpdate_column_witness :
  ∃ frag segs col,
    sqlForPartialUpdate 0 1
      (world_of (literal [("f1", JStr "v1"); ("jsF2", JStr "v2")])
                (literal [("jsF2", JStr "f2")]))
    = (world_of (literal [("f1", JStr "v1"); ("jsF2", JStr "v2")])
                (literal [("jsF2", JStr "f2")]), Normal frag) ∧
    setCols frag = String.concat ", " segs ∧
    length segs = 2 ∧
    segs !! 1 = Some (dquote +:+ col +:+ dquote +:+ "=$" +:+ "2") ∧
    col = "f2".
Proof.
  destruct (sqlForPartialUpdate_column
              (world_of (literal [("f1", JStr "v1"); ("jsF2", JStr "v2")])
                        (literal [("jsF2", JStr "f2")]))
              0 1 1 "jsF2" eq_refl)
    as (frag & segs & col & Hrun & Hcols & Hlen & Hseg & Htr & _).
  exists frag, segs, col. repeat split; try assumption.
  apply Htr; [reflexivity|discriminate].
Defined.

(** C3 as the specification words it fails twice over: a table that holds
    the empty string under a key yields the key, not the entry; and a key
    the table does not hold, but inherits from [Object.prototype], yields
    the inherited value converted to a string, not the key. *)
Lemma sqlForPartialUpdate_column_counterexample :
  ¬ resolves_as_specified
      (world_of (literal [("a", JNum 1)]) (literal [("a", JStr EmptyString)]))
      0 1
  ∧
  ¬ resolves_as_specified
      (world_of (literal [("constructor", JNum 1)]) (literal [])) 0 1.
Proof.
  split; intros H.
  - destruct (H 0 "a" eq_refl) as (frag & segs & Hrun & Hcols & Hlen & Hseg).
    vm_compute in Hrun. injection Hrun as <-. cbn [setCols] in Hcols.
    destruct segs as [|x [|y segs]]; try discriminate Hlen.
    injection Hseg as Hx. subst x. vm_compute in Hcols. discriminate Hcols.
  - destruct (H 0 "constructor" eq_refl)
      as (frag & segs & Hrun & Hcols & Hlen & Hseg).
    vm_compute in Hrun. injection Hrun as <-. cbn [setCols] in Hcols.
    destruct segs as [|x [|y segs]]; try discriminate Hlen.
    injection Hseg as Hx. subst x. vm_compute in Hcols. discriminate Hcols.
Qed.

(** ** The documented examples *)

(** C4. The two cases of [sql.test.js], the example of the function's own
    documentation, and the empty request. *)
Theorem sqlForPartialUpdate_examples :
  call_sqlForPartialUpdate
    (literal [("f1", JStr "v1")])
    (literal [("f1", JStr "f1"); ("fF2", JStr "f2")])
  = Normal {| setCols := quoted "f1" +:+ "=$1"; values := [JStr "v1"] |}
  ∧
  call_sqlForPartialUpdate
    (literal [("f1", JStr "v1"); ("jsF2", JStr "v2")])
    (literal [("jsF2", JStr "f2")])
  = Normal {| setCols := quoted "f1" +:+ "=$1, " +:+ quoted "f2" +:+ "=$2";
              values := [JStr "v1"; JStr "v2"] |}
  ∧
  call_sqlForPartialUpdate
    (literal [("firstName", JStr "Aliya"); ("age", JNum 32)])
    (literal [("firstName", JStr "first_name")])
  = Normal {| setCols := quoted "first_name" +:+ "=$1, "
                         +:+ quoted "age" +:+ "=$2";
              values := [JStr "Aliya"; JNum 32] |}
  ∧
  call_sqlForPartialUpdate (literal []) (literal [])
  = Throw (BadRequestError "No data").
Proof. repeat split; vm_compute; reflexivity. Qed.

(** ** Values stay out of the clause *)

(** C5. Two calls on requests with the same keys in the same order and on
    the same table return the same [setCols], whatever values the requests
    hold: the clause is built from the keys, the table and the indices
    alone. *)
Theorem setCols_ignores_values (w1 w2 : World) (d1 m1 d2 m2 : loc) :
  own (objs w1 d1) ≠ [] →
  own_keys (objs w1 d1) = own_keys (objs w2 d2) →
  objs w1 m1 = objs w2 m2 →
  ∃ frag1 frag2,
    sqlForPartialUpdate d1 m1 w1 = (w1, Normal frag1) ∧
    sqlForPartialUpdate d2 m2 w2 = (w2, Normal frag2) ∧
    setCols frag1 = setCols frag2 ∧
    setCols frag1 =
      String.concat ", "
        (imap (λ i key, dquote +:+ resolved_column (objs w1 m1) key
                        +:+ dquote +:+ "=$" +:+ pretty (i + 1))
              (own_keys (objs w1 d1))).
Proof.
  intros Hne Hkeys Hm. rewrite !sqlForPartialUpdate_run.
  destruct (own (objs w1 d1)) as [|p1 ps1] eqn:H1; [done|].
  destruct (own (objs w2 d2)) as [|p2 ps2] eqn:H2.
  { unfold own_keys in Hkeys. by rewrite H1, H2 in Hkeys. }
  eexists _, _. split; [reflexivity|]. split; [reflexivity|].
  cbn [setCols]. rewrite <- Hkeys, <- Hm. split; reflexivity.
Qed.

Lemma setCols_ignores_values_witness :
  ∃ frag1 frag2,
    call_sqlForPartialUpdate
      (literal [("firstName", JStr "Aliya"); ("age", JNum 32)])
      (literal [("firstName", JStr "first_name")]) = Normal frag1 ∧
    call_sqlForPartialUpdate
      (literal [("firstName", JStr "x, y"); ("age", JNull)])
      (literal [("firstName", JStr "first_name")]) = Normal frag2 ∧
    setCols frag1 = setCols frag2.
Proof.
  destruct (setCols_ignores_values
              (world_of (literal [("firstName", JStr "Aliya"); ("age", JNum 32)])
                        (literal [("firstName", JStr "first_name")]))
              (world_of (literal [("firstName", JStr "x, y"); ("age", JNull)])
                        (literal [("firstName", JStr "first_name")]))
              0 1 0 1)
    as (frag1 & frag2 & Hrun1 & Hrun2 & Heq & _).
  - simpl. discriminate.
  - reflexivity.
  - reflexivity.
  - exists frag1, frag2. unfold call_sqlForPartialUpdate.
    rewrite Hrun1, Hrun2. repeat split. exact Heq.
Defined.

(** ** No escaping *)

(** C9. A double quote inside a resolved column name goes into the
    segment as it is: when the name reads [pre], a double quote, [post],
    the segment reads a double quote, [pre], a double quote, [post], a
    double quote and the placeholder, nothing doubled or removed. *)
Theorem sqlForPartialUpdate_no_escaping (w : World)
    (dataToUpdate jsToSql : loc) (i : nat) (key pre post : string) :
  own_keys (objs w dataToUpdate) !! i = Some key →
  resolved_column (objs w jsToSql) key = pre +:+ dquote +:+ post →
  ∃ frag segs,
    sqlForPartialUpdate dataToUpdate jsToSql w = (w, Normal frag) ∧
    setCols frag = String.concat ", " segs ∧
    length segs = length (own_keys (objs w dataToUpdate)) ∧
    segs !! i = Some (dquote +:+ pre +:+ dquote +:+ post +:+ dquote
                      +:+ "=$" +:+ pretty (i + 1)).
Proof.
  intros Hi Hcol.
  destruct (sqlForPartialUpdate_segments w dataToUpdate jsToSql i key Hi)
    as (frag & segs & Hrun & Hcols & Hlen & _ & _ & Hseg).
  exists frag, segs. repeat split; try assumption.
  rewrite Hseg. unfold segment. rewrite Hcol.
  by rewrite !append_assoc.
Qed.

Lemma sqlForPartialUpdate_no_escaping_witness :
  ∃ frag,
    call_sqlForPartialUpdate
      (literal [("a" +:+ dquote +:+ "b", JNum 1)]) (literal []) = Normal frag ∧
    setCols frag = dquote +:+ "a" +:+ dquote +:+ "b" +:+ dquote +:+ "=$1".
Proof.
  destruct (sqlForPartialUpdate_no_escaping
              (world_of (literal [("a" +:+ dquote +:+ "b", JNum 1)]) (literal []))
              0 1 0 ("a" +:+ dquote +:+ "b") "a" "b" eq_refl eq_refl)
    as (frag & segs & Hrun & Hcols & Hlen & Hseg).
  exists frag. unfold call_sqlForPartialUpdate. rewrite Hrun.
  split; [reflexivity|].
  destruct segs as [|x [|y segs]]; try discriminate Hlen.
  injection Hseg as Hx. subst x. exact Hcols.
Defined.

(** ** The callers, run *)

Lemma store_same (l : loc) (o : JsObject) (h : loc → JsObject) :
  store l o h l = o.
Proof. unfold store. by rewrite Nat.eqb_refl. Qed.

Lemma store_other (l l' : loc) (o : JsObject) (h : loc → JsObject) :
  l' ≠ l → store l o h l' = h l'.
Proof. intros Hne. unfold store. by apply Nat.eqb_neq in Hne as ->. Qed.

Lemma Job_update_run (db_response : list (string * list JsValue) →
                                    Completion (list JsObject))
    (id : JsValue) (data : loc) (w : World) :
  data < next w →
  Job_update db_response id data w =
  let objs1 := store (next w) (literal []) (objs w) in
  match own (objs w data) with
  | [] => ({| objs := objs1; next := S (next w); queries := queries w |},
           Throw (BadRequestError "No data"))
  | _ :: _ =>
      let segs := imap (segment (literal [])) (own_keys (objs w data)) in
      let vals := own_values (objs w data) in
      let log := queries w ++
                 [(Job_update_querySql (String.concat ", " segs)
                     ("$" +:+ pretty (length vals + 1)), vals ++ [id])] in
      ({| objs := objs1; next := S (next w); queries := log |},
       match db_response log with
       | Normal rows =>
           match head rows with
           | None => Throw (NotFoundError ("No job: " +:+ ToString id))
           | Some job => Normal job
           end
       | Throw e => Throw e
       end)
  end.
Proof.
  intros Hdata. unfold Job_update.
  unfold mbind at 1. unfold Js_bind at 1. unfold new_object at 1.
  unfold mbind at 1. unfold Js_bind at 1.
  rewrite sqlForPartialUpdate_run. cbn [objs next queries].
  rewrite store_same, store_other by lia.
  destruct (own (objs w data)) as [|p ps] eqn:Hown; [reflexivity|].
  cbn [setCols values]. unfold mbind, Js_bind, db_query. cbn [objs next queries].
  destruct (db_response _) as [rows|e]; [|reflexivity].
  destruct (head rows); reflexivity.
Qed.

Lemma assoc_None (k : string) (ps : list (string * JsValue)) :
  assoc k ps = None ↔ k ∉ ps.*1.
Proof.
  induction ps as [|[k' v'] ps IH]; cbn [assoc].
  - split; [intros _; apply not_elem_of_nil|done].
  - rewrite fmap_cons, not_elem_of_cons. cbn [fst].
    destruct (String.eqb k k') eqn:Hk.
    + apply String.eqb_eq in Hk. split; [done|]. by intros [? _].
    + apply String.eqb_neq in Hk. rewrite IH. tauto.
Qed.

Lemma assign_keys (k : string) (v : JsValue) (ps : list (string * JsValue)) :
  (assign k v ps).*1 =
  match assoc k ps with Some _ => ps.*1 | None => ps.*1 ++ [k] end.
Proof.
  induction ps as [|[k' v'] ps IH]; cbn [assign assoc]; [reflexivity|].
  destruct (String.eqb k k') eqn:Hk.
  - apply String.eqb_eq in Hk as ->. reflexivity.
  - rewrite !fmap_cons, IH. by destruct (assoc k ps).
Qed.

Lemma assign_NoDup (k : string) (v : JsValue) (ps : list (string * JsValue)) :
  NoDup ps.*1 → NoDup (assign k v ps).*1.
Proof.
  intros Hnd. rewrite assign_keys.
  destruct (assoc k ps) eqn:Hk; [done|].
  apply NoDup_app. split; [done|]. split; [|apply NoDup_singleton].
  intros x Hx ->%list_elem_of_singleton. by apply assoc_None in Hk.
Qed.

Lemma assoc_assign_same (k : string) (v : JsValue)
    (ps : list (string * JsValue)) :
  assoc k (assign k v ps) = Some v.
Proof.
  induction ps as [|[k' v'] ps IH]; cbn [assign assoc].
  - by rewrite String.eqb_refl.
  - destruct (String.eqb k k') eqn:Hk; cbn [assoc].
    + by rewrite String.eqb_refl.
    + by rewrite Hk.
Qed.

Lemma assoc_assign_other (k k' : string) (v : JsValue)
    (ps : list (string * JsValue)) :
  k' ≠ k → assoc k' (assign k v ps) = assoc k' ps.
Proof.
  intros Hne. apply String.eqb_neq in Hne.
  induction ps as [|[k0 v0] ps IH]; cbn [assign assoc].
  - by rewrite Hne.
  - destruct (String.eqb k k0) eqn:Hk; cbn [assoc].
    + apply String.eqb_eq in Hk as <-. by rewrite Hne.
    + by rewrite IH.
Qed.

Lemma assign_lookup_other (k k' : string) (v v' : JsValue)
    (ps : list (string * JsValue)) (i : nat) :
  k' ≠ k → ps !! i = Some (k', v') → assign k v ps !! i = Some (k', v').
Proof.
  intros Hne. revert i.
  induction ps as [|[k0 v0] ps IH]; intros i Hi; [done|].
  cbn [assign]. destruct (String.eqb k k0) eqn:Hk.
  - apply String.eqb_eq in Hk as <-. destruct i as [|i]; [|done].
    by injection Hi as <- _.
  - destruct i as [|i]; [done|]. by apply IH.
Qed.

Lemma assign_lookup_same (k : string) (v : JsValue)
    (ps : list (string * JsValue)) (i : nat) :
  NoDup ps.*1 → ps.*1 !! i = Some k → assign k v ps !! i = Some (k, v).
Proof.
  revert i. induction ps as [|[k0 v0] ps IH]; intros i Hnd Hi; [done|].
  rewrite fmap_cons in Hnd. apply NoDup_cons in Hnd as [Hnotin Hnd].
  cbn [assign]. destruct (String.eqb k k0) eqn:Hk.
  - apply String.eqb_eq in Hk as <-. destruct i as [|i]; [done|].
    exfalso. apply Hnotin. apply list_elem_of_lookup. by exists i.
  - destruct i as [|i].
    + injection Hi as <-. by rewrite String.eqb_refl in Hk.
    + by apply IH.
Qed.

Section ModelsRun.

Variable bcrypt_hash : JsValue → JsValue → Completion JsValue.
Variable BCRYPT_WORK_FACTOR : JsValue.
Variable db_response : list (string * list JsValue) → Completion (list JsObject).

(** [User.update] once the password has been dealt with: [objs1] holds
    the objects as that first statement leaves them. *)
Lemma User_update_run (username : JsValue) (data : loc) (w : World)
    (objs1 : loc → JsObject) :
  let password := lookup_prop (objs w data) "password" in
  (truthy password = false ∧ objs1 = objs w) ∨
  (∃ h, truthy password = true ∧
        bcrypt_hash password BCRYPT_WORK_FACTOR = Normal h ∧
        objs1 = store data (with_password (objs w data) h) (objs w)) →
  data < next w →
  User_update bcrypt_hash BCRYPT_WORK_FACTOR db_response username data w =
  let objs2 := store (next w) (literal User_jsToSql) objs1 in
  match own (objs1 data) with
  | [] => ({| objs := objs2; next := S (next w); queries := queries w |},
           Throw (BadRequestError "No data"))
  | _ :: _ =>
      let segs := imap (segment (literal User_jsToSql))
                       (own_keys (objs1 data)) in
      let vals := own_values (objs1 data) in
      let log := queries w ++
                 [(User_update_querySql (String.concat ", " segs)
                     ("$" +:+ pretty (length vals + 1)), vals ++ [username])] in
      ({| objs := objs2; next := S (next w); queries := log |},
       match db_response log with
       | Normal rows =>
           match head rows with
           | None => Throw (NotFoundError ("No user: " +:+ ToString username))
           | Some user =>
               Normal {| own := remove_key "password" (own user);
                         inherited := inherited user |}
           end
       | Throw e => Throw e
       end)
  end.
Proof.
  intros password Hstep Hdata. unfold User_update.
  unfold mbind at 1. unfold Js_bind at 1. unfold get_prop at 1.
  fold password. unfold mbind at 1. unfold Js_bind at 1.
  assert ((if truthy password
           then plain ← get_prop data "password";
                hashed ← await (bcrypt_hash plain BCRYPT_WORK_FACTOR);
                set_prop data "password" hashed
           else mret tt) w
          = ({| objs := objs1; next := next w; queries := queries w |},
             Normal tt)) as ->.
  { destruct Hstep as [[-> ->]|(h & -> & Hh & ->)].
    - by destruct w.
    - unfold mbind, Js_bind, get_prop, await. fold password. by rewrite Hh. }
  unfold mbind at 1. unfold Js_bind at 1. unfold new_object at 1.
  cbn [objs next queries].
  unfold mbind at 1. unfold Js_bind at 1.
  rewrite sqlForPartialUpdate_run. cbn [objs next queries].
  rewrite store_same, store_other by lia.
  destruct (own (objs1 data)) as [|p ps] eqn:Hown; [reflexivity|].
  cbn [setCols values]. unfold mbind, Js_bind, db_query.
  cbn [objs next queries].
  destruct (db_response _) as [rows|e]; [|reflexivity].
  destruct (head rows); reflexivity.
Qed.

(** A password that [bcrypt] rejects ends the call there: nothing is
    changed and nothing is sent. *)
Lemma User_update_rejected (username : JsValue) (data : loc) (w : World)
    (e : JsError) :
  truthy (lookup_prop (objs w data) "password") = true →
  bcrypt_hash (lookup_prop (objs w data) "password") BCRYPT_WORK_FACTOR
  = Throw e →
  User_update bcrypt_hash BCRYPT_WORK_FACTOR db_response username data w
  = (w, Throw e).
Proof.
  intros Hpw Hh. unfold User_update.
  unfold mbind, Js_bind, get_prop, await. by rewrite Hpw, Hh.
Qed.

End ModelsRun.

(** ** The callers' statement and bound values *)

Lemma placeholders_aligned_intro (d table : JsObject)
    (before between after : string) (ident : JsValue) (sql : string) :
  wf_object d →
  sql = before +:+ String.concat ", " (imap (segment table) (own_keys d))
        +:+ between +:+ "$" +:+ pretty (length (own_values d) + 1)
        +:+ after →
  occurs "$" before = false →
  occurs "$" between = false →
  occurs "$" after = false →
  placeholders_aligned d table before between after ident sql
    (own_values d ++ [ident]).
Proof.
  intros Hwf Hsql Hbefore Hbetween Hafter.
  exists (imap (segment table) (own_keys d)), (own_values d).
  assert (length (own_values d) = length (own_keys d)) as Hlen
    by (unfold own_values, own_keys; by rewrite !length_fmap).
  split; [exact Hsql|]. split; [exact Hbefore|]. split; [exact Hbetween|].
  split; [exact Hafter|]. split; [reflexivity|].
  split; [apply length_imap|]. split; [exact Hlen|].
  split; [by rewrite list_lookup_middle|].
  split; [rewrite length_app; reflexivity|].
  intros i key Hi. split.
  - rewrite list_lookup_imap, Hi. reflexivity.
  - destruct (own_at_key _ _ _ Hi) as [v Hv].
    rewrite lookup_app_l
      by (rewrite Hlen; apply lookup_lt_is_Some; by rewrite Hi).
    unfold own_values. rewrite list_lookup_fmap, Hv.
    cbn [fmap option_fmap option_map snd].
    by rewrite (lookup_prop_own _ _ _ _ Hwf Hv).
Qed.

Lemma with_password_wf (o : JsObject) (h : JsValue) :
  wf_object o → wf_object (with_password o h).
Proof. apply assign_NoDup. Qed.

Lemma with_password_nonempty (o : JsObject) (h : JsValue) :
  own (with_password o h) ≠ [].
Proof.
  unfold with_password. cbn [own].
  destruct (own o) as [|[k v] ps]; cbn [assign]; [done|].
  by destruct (String.eqb "password" k).
Qed.

(** C7. Whenever [User.update] or [Job.update] is called on a non-empty
    request (and, for a user, [bcrypt] hashes the password if there is a
    truthy one), it sends exactly one statement.  Its text is the
    [UPDATE ... SET], the builder's fragment, the [WHERE] condition on
    the username or the id with, after the fragment, the placeholder
    numbered one past the number of values the builder returned, and the
    [RETURNING] list; the text has no other placeholder outside the
    fragment.  The identifying value is the last bound value, and the
    placeholder of every segment still points at the value of its own key
    in the request as the call leaves it. *)
Theorem update_placeholders_aligned :
  (∀ (bcrypt_hash : JsValue → JsValue → Completion JsValue)
     (BCRYPT_WORK_FACTOR : JsValue)
     (db_response : list (string * list JsValue) → Completion (list JsObject))
     (username : JsValue) (data : loc) (w : World),
     data < next w →
     wf_object (objs w data) →
     own (objs w data) ≠ [] →
     (truthy (lookup_prop (objs w data) "password") = true →
      ∃ h, bcrypt_hash (lookup_prop (objs w data) "password")
                       BCRYPT_WORK_FACTOR = Normal h) →
     ∃ sql params,
       queries (fst (User_update bcrypt_hash BCRYPT_WORK_FACTOR db_response
                                 username data w))
       = queries w ++ [(sql, params)] ∧
       placeholders_aligned
         (objs (fst (User_update bcrypt_hash BCRYPT_WORK_FACTOR db_response
                                 username data w)) data)
         (literal User_jsToSql)
         ("UPDATE users 
                      SET ")
         (" 
                      WHERE username = ")
         (" 
                      RETURNING username,
                                first_name AS " +:+ dquote +:+ "firstName" +:+ dquote +:+ ",
                                last_name AS " +:+ dquote +:+ "lastName" +:+ dquote +:+ ",
                                email,
                                is_admin AS " +:+ dquote +:+ "isAdmin" +:+ dquote)
         username sql params)
  ∧
  (∀ (db_response : list (string * list JsValue) → Completion (list JsObject))
     (id : JsValue) (data : loc) (w : World),
     data < next w →
     wf_object (objs w data) →
     own (objs w data) ≠ [] →
     ∃ sql params,
       queries (fst (Job_update db_response id data w))
       = queries w ++ [(sql, params)] ∧
       placeholders_aligned
         (objs (fst (Job_update db_response id data w)) data)
         (literal [])
         ("UPDATE jobs 
                      SET ")
         (" 
                      WHERE id = ")
         (" 
                      RETURNING id, 
                                title, 
                                salary, 
                                equity,
                                company_handle AS " +:+ dquote +:+ "companyHandle" +:+ dquote)
         id sql params).
Proof.
  split.
  - intros bcrypt_hash F db_response username data w Hdata Hwf Hne Hhash.
    assert (∃ objs1,
              ((truthy (lookup_prop (objs w data) "password") = false ∧
                objs1 = objs w) ∨
               (∃ h, truthy (lookup_prop (objs w data) "password") = true ∧
                     bcrypt_hash (lookup_prop (objs w data) "password") F
                     = Normal h ∧
                     objs1 = store data (with_password (objs w data) h)
                                   (objs w))) ∧
              wf_object (objs1 data) ∧ own (objs1 data) ≠ [])
      as (objs1 & Hstep & Hwf1 & Hne1).
    { destruct (truthy (lookup_prop (objs w data) "password")) eqn:Hpw.
      - destruct (Hhash eq_refl) as [h Hh]. eexists. split.
        + right. exists h. repeat split. exact Hh.
        + rewrite store_same. split.
          * by apply with_password_wf.
          * apply with_password_nonempty.
      - exists (objs w). split; [by left|done]. }
    rewrite (User_update_run bcrypt_hash F db_response username data w objs1
               Hstep Hdata).
    destruct (own (objs1 data)) as [|p ps] eqn:Hown; [done|].
    cbn [fst objs queries]. eexists _, _. split; [reflexivity|].
    rewrite store_other by lia.
    apply placeholders_aligned_intro; [assumption|reflexivity..].
  - intros db_response id data w Hdata Hwf Hne.
    rewrite (Job_update_run db_response id data w Hdata).
    destruct (own (objs w data)) as [|p ps] eqn:Hown; [done|].
    cbn [fst objs queries]. eexists _, _. split; [reflexivity|].
    rewrite store_other by lia.
    apply placeholders_aligned_intro; [assumption|reflexivity..].
Qed.

Lemma update_placeholders_aligned_witness :
  (∃ sql params,
     queries (fst (User_update sample_hash (JNum 12) sample_db (JStr "u1") 0
                               sample_world))
     = queries sample_world ++ [(sql, params)] ∧
     placeholders_aligned
       (objs (fst (User_update sample_hash (JNum 12) sample_db (JStr "u1") 0
                               sample_world)) 0)
       (literal User_jsToSql)
         ("UPDATE users 
                      SET ")
         (" 
                      WHERE username = ")
         (" 
                      RETURNING username,
                                first_name AS " +:+ dquote +:+ "firstName" +:+ dquote +:+ ",
                                last_name AS " +:+ dquote +:+ "lastName" +:+ dquote +:+ ",
                                email,
                                is_admin AS " +:+ dquote +:+ "isAdmin" +:+ dquote)
         (JStr "u1") sql params)
  ∧
  (∃ sql params,
     queries (fst (Job_update sample_db (JNum 7) 0 sample_world))
     = queries sample_world ++ [(sql, params)] ∧
     placeholders_aligned
       (objs (fst (Job_update sample_db (JNum 7) 0 sample_world)) 0)
       (literal [])
         ("UPDATE jobs 
                      SET ")
         (" 
                      WHERE id = ")
         (" 
                      RETURNING id, 
                                title, 
                                salary, 
                                equity,
                                company_handle AS " +:+ dquote +:+ "companyHandle" +:+ dquote)
         (JNum 7) sql params).
Proof.
  split.
  - apply (proj1 update_placeholders_aligned
             sample_hash (JNum 12) sample_db (JStr "u1") 0 sample_world).
    + simpl. lia.
    + apply (bool_decide_unpack _). vm_compute. exact I.
    + simpl. discriminate.
    + intros _. eexists. reflexivity.
  - apply (proj2 update_placeholders_aligned
             sample_db (JNum 7) 0 sample_world).
    + simpl. lia.
    + apply (bool_decide_unpack _). vm_compute. exact I.
    + simpl. discriminate.
Defined.

(** ** The request is changed in place *)

(** C10. A call of [User.update] on a request whose own [password] is
    truthy, and which [bcrypt] hashes, leaves the caller's object with the
    hash under [password], in the place the password had; the keys and
    their order, every other property and every other object are as they
    were; the value bound in the statement at the password's index is the
    hash, so the builder ran on the changed object; and where the hash
    differs from the password the object no longer holds the password. *)
Theorem User_update_overwrites_password
    (bcrypt_hash : JsValue → JsValue → Completion JsValue)
    (BCRYPT_WORK_FACTOR : JsValue)
    (db_response : list (string * list JsValue) → Completion (list JsObject))
    (username : JsValue) (data : loc) (w : World) (plain h : JsValue) :
  data < next w →
  wf_object (objs w data) →
  assoc "password" (own (objs w data)) = Some plain →
  truthy plain = true →
  bcrypt_hash plain BCRYPT_WORK_FACTOR = Normal h →
  ∃ w' result,
    User_update bcrypt_hash BCRYPT_WORK_FACTOR db_response username data w
    = (w', result) ∧
    own (objs w' data) = assign "password" h (own (objs w data)) ∧
    inherited (objs w' data) = inherited (objs w data) ∧
    lookup_prop (objs w' data) "password" = h ∧
    (h ≠ plain → lookup_prop (objs w' data) "password" ≠ plain) ∧
    own_keys (objs w' data) = own_keys (objs w data) ∧
    (∀ i, own_keys (objs w data) !! i = Some "password" →
          own (objs w' data) !! i = Some ("password", h)) ∧
    (∀ i key v, key ≠ "password" →
          own (objs w data) !! i = Some (key, v) →
          own (objs w' data) !! i = Some (key, v)) ∧
    (∀ key, key ≠ "password" →
          lookup_prop (objs w' data) key = lookup_prop (objs w data) key) ∧
    (∀ l, l < next w → l ≠ data → objs w' l = objs w l) ∧
    (∃ sql params,
        queries w' = queries w ++ [(sql, params)] ∧
        ∀ i, own_keys (objs w data) !! i = Some "password" →
             params !! i = Some h).
Proof.
  intros Hdata Hwf Hplain Htruthy Hh.
  assert (lookup_prop (objs w data) "password" = plain) as Hpw
    by (unfold lookup_prop; by rewrite Hplain).
  set (d := objs w data) in *.
  set (objs1 := store data (with_password d h) (objs w)).
  assert (objs1 data = with_password d h) as Hd1 by apply store_same.
  assert (own_keys (with_password d h) = own_keys d) as Hkeys.
  { unfold own_keys, with_password. cbn [own].
    by rewrite assign_keys, Hplain. }
  rewrite (User_update_run bcrypt_hash BCRYPT_WORK_FACTOR db_response
             username data w objs1);
    [|right; exists h; fold d; rewrite Hpw; by repeat split|exact Hdata].
  cbv zeta. rewrite Hd1.
  destruct (own (with_password d h)) as [|p ps] eqn:Hown;
    [by apply with_password_nonempty in Hown|].
  clear p ps Hown.
  eexists _, _. split; [reflexivity|].
  cbn [objs queries]. rewrite store_other by lia. rewrite Hd1.
  split; [reflexivity|]. split; [reflexivity|].
  assert (lookup_prop (with_password d h) "password" = h) as Hnew.
  { unfold lookup_prop, with_password. cbn [own].
    by rewrite assoc_assign_same. }
  split; [exact Hnew|]. split; [by rewrite Hnew|]. split; [exact Hkeys|].
  split; [intros i Hi; by apply assign_lookup_same|].
  split; [intros i key v Hne Hi; by apply assign_lookup_other|].
  split.
  { intros key Hne. unfold lookup_prop, with_password. cbn [own inherited].
    by rewrite assoc_assign_other. }
  split.
  { intros l Hl Hne. rewrite store_other by lia. unfold objs1.
    by rewrite store_other. }
  eexists _, _. split; [reflexivity|].
  intros i Hi.
  assert (i < length (own_values (with_password d h))) as Hlt.
  { unfold own_values. rewrite length_fmap.
    replace (length (own (with_password d h)))
      with (length (own_keys (with_password d h)))
      by (unfold own_keys; by rewrite length_fmap).
    rewrite Hkeys. apply lookup_lt_is_Some. by rewrite Hi. }
  rewrite lookup_app_l by exact Hlt.
  unfold own_values. rewrite list_lookup_fmap.
  unfold with_password at 1. cbn [own].
  by rewrite (assign_lookup_same "password" h (own d) i Hwf Hi).
Qed.

Lemma User_update_overwrites_password_witness :
  ∃ w' result,
    User_update sample_hash (JNum 12) sample_db (JStr "u1") 0 sample_world
    = (w', result) ∧
    own (objs w' 0)
    = [("firstName", JStr "Aliya"); ("password", JStr "$2b$12$pw")] ∧
    lookup_prop (objs w' 0) "password" ≠ JStr "pw".
Proof.
  destruct (User_update_overwrites_password
              sample_hash (JNum 12) sample_db (JStr "u1") 0 sample_world
              (JStr "pw") (JStr "$2b$12$pw"))
    as (w' & result & Hrun & Hown & _ & _ & Hgone & _).
  - simpl. lia.
  - apply (bool_decide_unpack _). vm_compute. exact I.
  - reflexivity.
  - reflexivity.
  - reflexivity.
  - exists w', result. split; [exact Hrun|]. split; [exact Hown|].
    apply Hgone. discriminate.
Defined.

(** ** Job.findAll *)

(** The statement and the bound values of a call on a filter object, in
    closed form. *)
Lemma Job_findAll_run
    (db_response : list (string * list JsValue) → Completion (list JsObject))
    (filters : loc) (w : World) :
  let minSalary := lookup_prop (objs w filters) "minSalary" in
  let hasEquity := lookup_prop (objs w filters) "hasEquity" in
  let title := lookup_prop (objs w filters) "title" in
  let exprs :=
    (if is_undefined minSalary then [] else ["salary >= $1"]) ++
    (if is_true hasEquity then ["equity > 0"] else []) ++
    (if is_undefined title then []
     else ["title ILIKE $" +:+ (if is_undefined minSalary then "1" else "2")]) in
  let params :=
    (if is_undefined minSalary then [] else [minSalary]) ++
    (if is_undefined title then []
     else [JStr ("%" +:+ ToString title +:+ "%")]) in
  Job_findAll db_response (Some filters) w =
  db_query db_response
    (Job_findAll_select
     +:+ match exprs with
         | [] => EmptyString
         | _ :: _ => " WHERE " +:+ String.concat " AND " exprs
         end
     +:+ " ORDER BY title")
    params w.
Proof.
  cbv zeta. unfold Job_findAll, mbind, Js_bind, mret, Js_ret, get_prop.
  destruct (is_undefined (lookup_prop (objs w filters) "minSalary"));
    destruct (is_true (lookup_prop (objs w filters) "hasEquity"));
    destruct (is_undefined (lookup_prop (objs w filters) "title"));
    reflexivity.
Qed.



Lemma is_true_true (v : JsValue) : is_true v = true ↔ v = JBool true.
Proof. destruct v as [| |[|]| | |]; simpl; split; congruence. Qed.


(** X2. Without a minimum salary and a title, and with [hasEquity] other
    than [true], the statement has no [WHERE] and binds nothing; a call
    without argument sends that same statement. *)
Theorem Job_findAll_unfiltered
    (db_response : list (string * list JsValue) → Completion (list JsObject))
    (filters : loc) (w : World) :
  lookup_prop (objs w filters) "minSalary" = JUndefined →
  lookup_prop (objs w filters) "hasEquity" ≠ JBool true →
  lookup_prop (objs w filters) "title" = JUndefined →
  queries (fst (Job_findAll db_response (Some filters) w))
  = queries w ++ [(Job_findAll_select +:+ " ORDER BY title", [])] ∧
  queries (fst (Job_findAll db_response None w))
  = queries w ++ [(Job_findAll_select +:+ " ORDER BY title", [])].
Proof.
  intros Hm Hh Ht. split.
  - rewrite Job_findAll_run. rewrite Hm, Ht.
    destruct (is_true (lookup_prop (objs w filters) "hasEquity")) eqn:Hh'.
    + by apply is_true_true in Hh'.
    + reflexivity.
  - unfold Job_findAll, mbind, Js_bind, mret, Js_ret, new_object, get_prop.
    cbn [objs]. rewrite !store_same. reflexivity.
Qed.

Lemma Job_findAll_unfiltered_witness :
  queries (fst (Job_findAll sample_db (Some 0)
                  (world_of (literal [("hasEquity", JStr "true")]) (literal []))))
  = [(Job_findAll_select +:+ " ORDER BY title", [])].
Proof.
  apply (Job_findAll_unfiltered sample_db 0
           (world_of (literal [("hasEquity", JStr "true")]) (literal []))).
  - reflexivity.
  - discriminate.
  - reflexivity.
Defined.

(** X3. The text of the statement depends on which filters are given, not
    on their values: two calls whose filters agree on whether the minimum
    salary is [undefined], whether [hasEquity] is [true] and whether the
    title is [undefined] send the same text. *)
Theorem Job_findAll_text_ignores_values
    (db1 db2 : list (string * list JsValue) → Completion (list JsObject))
    (f1 f2 : loc) (w1 w2 : World) :
  is_undefined (lookup_prop (objs w1 f1) "minSalary")
  = is_undefined (lookup_prop (objs w2 f2) "minSalary") →
  is_true (lookup_prop (objs w1 f1) "hasEquity")
  = is_true (lookup_prop (objs w2 f2) "hasEquity") →
  is_undefined (lookup_prop (objs w1 f1) "title")
  = is_undefined (lookup_prop (objs w2 f2) "title") →
  ∃ sql params1 params2,
    queries (fst (Job_findAll db1 (Some f1) w1))
    = queries w1 ++ [(sql, params1)] ∧
    queries (fst (Job_findAll db2 (Some f2) w2))
    = queries w2 ++ [(sql, params2)].
Proof.
  intros Hm Hh Ht. rewrite !Job_findAll_run. unfold db_query.
  cbn [fst queries]. rewrite Hm, Hh, Ht. eexists _, _, _.
  split; reflexivity.
Qed.

Lemma Job_findAll_text_ignores_values_witness :
  ∃ sql params1 params2,
    queries (fst (Job_findAll sample_db (Some 0)
                    (world_of (literal [("title", JStr "eng")]) (literal []))))
    = [(sql, params1)] ∧
    queries (fst (Job_findAll sample_db (Some 0)
                    (world_of (literal [("title", JStr "%' OR 1=1 --")])
                              (literal []))))
    = [(sql, params2)].
Proof.
  apply (Job_findAll_text_ignores_values sample_db sample_db 0 0
           (world_of (literal [("title", JStr "eng")]) (literal []))
           (world_of (literal [("title", JStr "%' OR 1=1 --")]) (literal [])));
    reflexivity.
Defined.

(** X4. The text of the statement [Job.findAll] sends contains
    [equity > 0] exactly when [hasEquity] is the boolean [true]; the
    string "true", a number or any other value leaves it out. *)
Theorem Job_findAll_hasEquity
    (db_response : list (string * list JsValue) → Completion (list JsObject))
    (filters : loc) (w : World) :
  ∃ sql params,
    queries (fst (Job_findAll db_response (Some filters) w))
    = queries w ++ [(sql, params)] ∧
    (contains "equity > 0" sql = true ↔
     lookup_prop (objs w filters) "hasEquity" = JBool true).
Proof.
  rewrite Job_findAll_run. unfold db_query. cbn [fst queries].
  eexists _, _. split; [reflexivity|].
  rewrite <- is_true_true.
  destruct (is_undefined (lookup_prop (objs w filters) "minSalary"));
    destruct (is_true (lookup_prop (objs w filters) "hasEquity"));
    destruct (is_undefined (lookup_prop (objs w filters) "title"));
    vm_compute; split; intros H; first [reflexivity | discriminate H].
Qed.

(** ** Rows and their properties *)

Lemma assoc_remove_same (k : string) (ps : list (string * JsValue)) :
  NoDup ps.*1 → assoc k (remove_key k ps) = None.
Proof.
  induction ps as [|[k' v'] ps IH]; intros Hnd; [reflexivity|].
  rewrite fmap_cons in Hnd. apply NoDup_cons in Hnd as [Hnotin Hnd].
  cbn [remove_key]. destruct (String.eqb k k') eqn:Hk.
  - apply String.eqb_eq in Hk as ->. by apply assoc_None.
  - cbn [assoc]. rewrite Hk. by apply IH.
Qed.

Lemma assoc_remove_other (k k' : string) (ps : list (string * JsValue)) :
  k' ≠ k → assoc k' (remove_key k ps) = assoc k' ps.
Proof.
  intros Hne. apply String.eqb_neq in Hne.
  induction ps as [|[k0 v0] ps IH]; [reflexivity|].
  cbn [remove_key assoc]. destruct (String.eqb k k0) eqn:Hk.
  - apply String.eqb_eq in Hk as <-. by rewrite Hne.
  - cbn [assoc]. by rewrite IH.
Qed.

Lemma remove_key_NoDup (k : string) (ps : list (string * JsValue)) :
  NoDup ps.*1 → NoDup (remove_key k ps).*1.
Proof.
  induction ps as [|[k' v'] ps IH]; intros Hnd; [done|].
  rewrite fmap_cons in Hnd. apply NoDup_cons in Hnd as [Hnotin Hnd].
  cbn [remove_key]. destruct (String.eqb k k'); [done|].
  rewrite fmap_cons. apply NoDup_cons. split; [|by apply IH].
  cbn [fst]. intros Hin. apply Hnotin. clear -Hin.
  induction ps as [|[k0 v0] ps IH]; [done|].
  cbn [remove_key] in Hin. rewrite fmap_cons. cbn [fst].
  apply elem_of_cons. destruct (String.eqb k k0); [by right|].
  rewrite fmap_cons in Hin. cbn [fst] in Hin.
  apply elem_of_cons in Hin as [->|Hin]; [by left|right; by apply IH].
Qed.

Lemma without_lookup_other (k k' : string) (o : JsObject) :
  k' ≠ k → lookup_prop (without k o) k' = lookup_prop o k'.
Proof.
  intros Hne. unfold lookup_prop, without. cbn [own inherited].
  by rewrite assoc_remove_other.
Qed.

Lemma without_own (k : string) (o : JsObject) :
  wf_object o → assoc k (own (without k o)) = None.
Proof. intros Hwf. by apply assoc_remove_same. Qed.

(** ** Job.get *)

(** X5. When the database has no job under the identifier (a string, or
    a number within the safe integers), [Job.get] throws the not-found
    error naming it, and the company has not been asked for: the job
    statement is the only one sent. *)
Theorem Job_get_not_found
    (db_response : list (string * list JsValue) → Completion (list JsObject))
    (id : JsValue) (w : World) :
  safe_number id →
  db_response (queries w ++ [(Job_get_sql, [id])]) = Normal [] →
  Job_get db_response id w =
  ({| objs := objs w; next := next w;
      queries := queries w ++ [(Job_get_sql, [id])] |},
   Throw (NotFoundError ("No job: " +:+ ToString id))).
Proof.
  intros _ Hdb. unfold Job_get, mbind, Js_bind, db_query. by rewrite Hdb.
Qed.

Lemma Job_get_not_found_witness :
  snd (Job_get sample_db (JNum 7) sample_world)
  = Throw (NotFoundError "No job: 7").
Proof.
  assert (safe_number (JNum 7)) as Hid by (split; reflexivity).
  rewrite (Job_get_not_found sample_db (JNum 7) sample_world Hid eq_refl).
  reflexivity.
Defined.

(** X6. When the database returns a job, [Job.get] asks for the company
    with the job's [companyHandle] as the one bound value, and returns the
    job without its [companyHandle], with the first company row under
    [company] in the place of whatever the row held there, and every
    other property as the row had it. *)
Theorem Job_get_found
    (db_response : list (string * list JsValue) → Completion (list JsObject))
    (id : JsValue) (w : World) (job : JsObject) (more companies : list JsObject) :
  wf_object job →
  db_response (queries w ++ [(Job_get_sql, [id])]) = Normal (job :: more) →
  db_response (queries w ++ [(Job_get_sql, [id])] ++
               [(Job_get_company_sql, [lookup_prop job "companyHandle"])])
  = Normal companies →
  ∃ w' result,
    Job_get db_response id w = (w', Normal result) ∧
    queries w' = queries w ++
                 [(Job_get_sql, [id]);
                  (Job_get_company_sql, [lookup_prop job "companyHandle"])] ∧
    company result = head companies ∧
    assoc "companyHandle" (own (job_row result)) = None ∧
    assoc "company" (own (job_row result)) = None ∧
    ∀ key, key ≠ "companyHandle" → key ≠ "company" →
           lookup_prop (job_row result) key = lookup_prop job key.
Proof.
  intros Hwf Hjob Hco. unfold Job_get, mbind, Js_bind, db_query.
  rewrite Hjob. cbn [head objs next queries].
  rewrite <- app_assoc, Hco. eexists _, _. split; [reflexivity|].
  cbn [queries company job_row]. split; [reflexivity|].
  split; [reflexivity|]. split.
  { unfold without. cbn [own].
    rewrite assoc_remove_other by discriminate. by apply assoc_remove_same. }
  split; [apply without_own; by apply remove_key_NoDup|].
  intros key Hne Hne'. by rewrite !without_lookup_other.
Qed.

Lemma Job_get_found_witness :
  ∃ w' result,
    Job_get (scripted_db [(Job_get_sql, [sample_job]);
                          (Job_get_company_sql, [sample_company])])
            (JNum 7) sample_world = (w', Normal result) ∧
    company result = Some sample_company ∧
    assoc "companyHandle" (own (job_row result)) = None ∧
    lookup_prop (job_row result) "title" = JStr "Engineer".
Proof.
  destruct (Job_get_found
              (scripted_db [(Job_get_sql, [sample_job]);
                            (Job_get_company_sql, [sample_company])])
              (JNum 7) sample_world sample_job [] [sample_company])
    as (w' & result & Hrun & _ & Hco & Hgone & _ & Hkeep).
  - apply (bool_decide_unpack _). vm_compute. exact I.
  - reflexivity.
  - reflexivity.
  - exists w', result. split; [exact Hrun|]. split; [exact Hco|].
    split; [exact Hgone|]. rewrite Hkeep by discriminate. reflexivity.
Defined.

(** ** Lookups by identifier *)

(** X7. [User.get], [User.remove] and [Job.remove], given an identifier
    that is a string or a number within the safe integers, each send one
    statement with the identifier as its only bound value; they throw the
    not-found error naming the identifier when the database returns no
    row, and complete normally, [User.get] with the first row, when it
    returns one. *)
Theorem lookups_not_found
    (db_response : list (string * list JsValue) → Completion (list JsObject))
    (ident : JsValue) (w : World) :
  safe_number ident →
  (∀ rows,
     db_response (queries w ++ [(User_get_sql, [ident])]) = Normal rows →
     User_get db_response ident w =
     ({| objs := objs w; next := next w;
         queries := queries w ++ [(User_get_sql, [ident])] |},
      match rows with
      | [] => Throw (NotFoundError ("No user: " +:+ ToString ident))
      | user :: _ => Normal user
      end)) ∧
  (∀ rows,
     db_response (queries w ++ [(User_remove_sql, [ident])]) = Normal rows →
     User_remove db_response ident w =
     ({| objs := objs w; next := next w;
         queries := queries w ++ [(User_remove_sql, [ident])] |},
      match rows with
      | [] => Throw (NotFoundError ("No user: " +:+ ToString ident))
      | _ :: _ => Normal tt
      end)) ∧
  (∀ rows,
     db_response (queries w ++ [(Job_remove_sql, [ident])]) = Normal rows →
     Job_remove db_response ident w =
     ({| objs := objs w; next := next w;
         queries := queries w ++ [(Job_remove_sql, [ident])] |},
      match rows with
      | [] => Throw (NotFoundError ("No job: " +:+ ToString ident))
      | _ :: _ => Normal tt
      end)).
Proof.
  intros _. repeat split; intros rows Hdb;
    unfold User_get, User_remove, Job_remove, mbind, Js_bind, db_query;
    rewrite Hdb; by destruct rows.
Qed.

Lemma lookups_not_found_witness :
  snd (User_get sample_db (JStr "u1") sample_world)
  = Throw (NotFoundError "No user: u1") ∧
  snd (User_remove (scripted_db [(User_remove_sql, [sample_user])])
                   (JStr "u1") sample_world) = Normal tt ∧
  snd (Job_remove sample_db (JNum 7) sample_world)
  = Throw (NotFoundError "No job: 7").
Proof.
  split; [|split].
  - rewrite (proj1 (lookups_not_found sample_db (JStr "u1") sample_world I)
               [] eq_refl).
    reflexivity.
  - rewrite (proj1 (proj2 (lookups_not_found
                             (scripted_db [(User_remove_sql, [sample_user])])
                             (JStr "u1") sample_world I))
               [sample_user] eq_refl).
    reflexivity.
  - rewrite (proj2 (proj2 (lookups_not_found sample_db (JNum 7) sample_world
                             (conj eq_refl eq_refl)))
               [] eq_refl).
    reflexivity.
Defined.

(** ** User.register *)

(** X8. When the duplicate check returns a row, [User.register] throws the
    bad-request error naming the username (a string, or a number within
    the safe integers) and inserts nothing: the check is the only
    statement sent. *)
Theorem User_register_duplicate
    (bcrypt_hash : JsValue → JsValue → Completion JsValue)
    (BCRYPT_WORK_FACTOR : JsValue)
    (db_response : list (string * list JsValue) → Completion (list JsObject))
    (user : loc) (w : World) (row : JsObject) (more : list JsObject) :
  safe_number (lookup_prop (objs w user) "username") →
  db_response (queries w ++
               [(User_register_check_sql,
                 [lookup_prop (objs w user) "username"])])
  = Normal (row :: more) →
  User_register bcrypt_hash BCRYPT_WORK_FACTOR db_response user w =
  ({| objs := objs w; next := next w;
      queries := queries w ++
                 [(User_register_check_sql,
                   [lookup_prop (objs w user) "username"])] |},
   Throw (BadRequestError
            ("Duplicate username: "
             +:+ ToString (lookup_prop (objs w user) "username")))).
Proof.
  intros _ Hdb.
  unfold User_register, mbind, Js_bind, get_prop, db_query. by rewrite Hdb.
Qed.

Lemma User_register_duplicate_witness :
  snd (User_register sample_hash (JNum 12)
         (scripted_db [(User_register_check_sql, [sample_user])]) 0
         (world_of (literal [("username", JStr "u1"); ("password", JStr "pw")])
                   (literal [])))
  = Throw (BadRequestError "Duplicate username: u1").
Proof.
  rewrite (User_register_duplicate sample_hash (JNum 12)
             (scripted_db [(User_register_check_sql, [sample_user])]) 0
             (world_of (literal [("username", JStr "u1"); ("password", JStr "pw")])
                       (literal []))
             sample_user [] I eq_refl).
  reflexivity.
Defined.

(** X9. When the username is free and [bcrypt] gives a hash,
    [User.register] sends the check and then the insertion with six bound
    values for its six placeholders: the username, the hash in the place
    of the password, then first name, last name, email and admin flag as
    the argument holds them.  It returns the first row of the insertion
    and, unlike [User.update], leaves its argument as it was. *)
Theorem User_register_inserts_hash
    (bcrypt_hash : JsValue → JsValue → Completion JsValue)
    (BCRYPT_WORK_FACTOR : JsValue)
    (db_response : list (string * list JsValue) → Completion (list JsObject))
    (user : loc) (w : World) (h : JsValue) (rows : list JsObject) :
  let d := objs w user in
  let check := (User_register_check_sql, [lookup_prop d "username"]) in
  let insert :=
    (User_register_insert_sql,
     [lookup_prop d "username"; h; lookup_prop d "firstName";
      lookup_prop d "lastName"; lookup_prop d "email";
      lookup_prop d "isAdmin"]) in
  db_response (queries w ++ [check]) = Normal [] →
  bcrypt_hash (lookup_prop d "password") BCRYPT_WORK_FACTOR = Normal h →
  db_response ((queries w ++ [check]) ++ [insert]) = Normal rows →
  User_register bcrypt_hash BCRYPT_WORK_FACTOR db_response user w =
  ({| objs := objs w; next := next w;
      queries := (queries w ++ [check]) ++ [insert] |},
   Normal (head rows)).
Proof.
  intros d check insert Hcheck Hh Hins.
  unfold User_register, mbind, Js_bind, get_prop, db_query, await.
  cbn [objs next queries]. fold d. fold check. rewrite Hcheck.
  cbn [head]. rewrite Hh. cbn [objs next queries]. fold insert.
  by rewrite Hins.
Qed.

Lemma User_register_inserts_hash_witness :
  List.map snd
    (queries (fst (User_register sample_hash (JNum 12)
                     (scripted_db [(User_register_insert_sql, [sample_user])]) 0
                     (world_of (literal [("username", JStr "u1");
                                         ("password", JStr "pw")])
                               (literal [])))))
  = [[JStr "u1"];
     [JStr "u1"; JStr "$2b$12$pw"; JUndefined; JUndefined; JUndefined;
      JUndefined]].
Proof.
  rewrite (User_register_inserts_hash sample_hash (JNum 12)
             (scripted_db [(User_register_insert_sql, [sample_user])]) 0
             (world_of (literal [("username", JStr "u1");
                                 ("password", JStr "pw")])
                       (literal []))
             (JStr "$2b$12$pw") [sample_user] eq_refl eq_refl eq_refl).
  reflexivity.
Defined.

(** ** User.authenticate *)

(** X10. [User.authenticate] returns a user exactly when the database
    returns a row for the username and [bcrypt.compare] of the given
    password with the row's [password] gives the boolean [true]; the user
    returned is that row without its [password], every other property
    kept. *)
Theorem User_authenticate_accepts
    (bcrypt_compare : JsValue → JsValue → Completion JsValue)
    (db_response : list (string * list JsValue) → Completion (list JsObject))
    (username password : JsValue) (w : World) (result : JsObject) :
  snd (User_authenticate bcrypt_compare db_response username password w)
  = Done (Normal result)
  ↔
  ∃ row more,
    db_response (queries w ++ [(User_authenticate_sql, [username])])
    = Normal (row :: more) ∧
    bcrypt_compare password (lookup_prop row "password")
    = Normal (JBool true) ∧
    result = without "password" row.
Proof.
  unfold User_authenticate, db_query.
  destruct (db_response _) as [[|row more]|e]; cbn [head snd].
  - split; [discriminate|]. intros (r & m & Hdb & _). discriminate Hdb.
  - destruct (bcrypt_compare password (lookup_prop row "password"))
      as [isValid|e] eqn:Hcmp.
    + destruct (is_true isValid) eqn:Hv; cbn [snd].
      * apply is_true_true in Hv as ->. split.
        -- intros [= <-]. by exists row, more.
        -- intros (r & m & [= <- <-] & _ & ->). reflexivity.
      * split; [discriminate|].
        intros (r & m & [= <- <-] & Hc & _). rewrite Hcmp in Hc.
        injection Hc as ->. discriminate Hv.
    + cbn [snd]. split; [discriminate|].
      intros (r & m & [= <- <-] & Hc & _). rewrite Hcmp in Hc. discriminate Hc.
  - split; [discriminate|]. intros (r & m & Hdb & _). discriminate Hdb.
Qed.

(** X11. An unknown username and a wrong password are refused alike:
    when the database returns no row, or returns one and [bcrypt.compare]
    gives anything but the boolean [true], the call throws the
    unauthorized error with the one message "Invalid username/password";
    a returned user never holds a [password] of its own. *)
Theorem User_authenticate_refuses_alike
    (bcrypt_compare : JsValue → JsValue → Completion JsValue)
    (db_response : list (string * list JsValue) → Completion (list JsObject))
    (username password : JsValue) (w : World) :
  (db_response (queries w ++ [(User_authenticate_sql, [username])])
   = Normal [] ∨
   ∃ row more isValid,
     db_response (queries w ++ [(User_authenticate_sql, [username])])
     = Normal (row :: more) ∧
     bcrypt_compare password (lookup_prop row "password") = Normal isValid ∧
     isValid ≠ JBool true) →
  snd (User_authenticate bcrypt_compare db_response username password w)
  = Refused (UnauthorizedError (Some "Invalid username/password")).
Proof.
  unfold User_authenticate, db_query.
  intros [Hdb|(row & more & isValid & Hdb & Hcmp & Hne)]; rewrite Hdb;
    cbn [head]; [reflexivity|].
  rewrite Hcmp. destruct (is_true isValid) eqn:Hv; [|reflexivity].
  by apply is_true_true in Hv.
Qed.

Lemma User_authenticate_refuses_alike_witness :
  snd (User_authenticate sample_compare sample_db
         (JStr "nobody") (JStr "pw") sample_world)
  = Refused (UnauthorizedError (Some "Invalid username/password")) ∧
  snd (User_authenticate sample_compare
         (scripted_db [(User_authenticate_sql, [sample_user])])
         (JStr "u1") (JStr "wrong") sample_world)
  = Refused (UnauthorizedError (Some "Invalid username/password")).
Proof.
  split.
  - apply (User_authenticate_refuses_alike sample_compare sample_db
             (JStr "nobody") (JStr "pw") sample_world).
    left. reflexivity.
  - apply (User_authenticate_refuses_alike sample_compare
             (scripted_db [(User_authenticate_sql, [sample_user])])
             (JStr "u1") (JStr "wrong") sample_world).
    right. exists sample_user, [], (JBool false).
    split; [reflexivity|]. split; [reflexivity|discriminate].
Defined.

(** X12. The user [User.authenticate] returns has no [password] of its
    own, whatever the row held. *)
Theorem User_authenticate_drops_password
    (bcrypt_compare : JsValue → JsValue → Completion JsValue)
    (db_response : list (string * list JsValue) → Completion (list JsObject))
    (username password : JsValue) (w : World) (result : JsObject) :
  (∀ rows,
     db_response (queries w ++ [(User_authenticate_sql, [username])])
     = Normal rows → Forall wf_object rows) →
  snd (User_authenticate bcrypt_compare db_response username password w)
  = Done (Normal result) →
  assoc "password" (own result) = None.
Proof.
  intros Hwf. unfold User_authenticate, db_query.
  destruct (db_response _) as [[|row more]|e] eqn:Hdb; cbn [head snd];
    try discriminate.
  destruct (bcrypt_compare password (lookup_prop row "password"))
    as [isValid|e]; [|discriminate].
  destruct (is_true isValid); cbn [snd]; [|discriminate].
  intros [= <-]. apply without_own. specialize (Hwf _ eq_refl).
  by apply Forall_cons in Hwf as [Hrow _].
Qed.

Lemma User_authenticate_drops_password_witness :
  ∃ result,
    snd (User_authenticate sample_compare
           (scripted_db [(User_authenticate_sql, [sample_user])])
           (JStr "u1") (JStr "pw") sample_world) = Done (Normal result) ∧
    assoc "password" (own result) = None.
Proof.
  exists (without "password" sample_user). split; [reflexivity|].
  apply (User_authenticate_drops_password sample_compare
           (scripted_db [(User_authenticate_sql, [sample_user])])
           (JStr "u1") (JStr "pw") sample_world).
  - intros rows [= <-]. apply List.Forall_cons; [|apply List.Forall_nil].
    apply (bool_decide_unpack _). vm_compute. exact I.
  - reflexivity.
Defined.

Lemma User_authenticate_accepts_witness :
  snd (User_authenticate sample_compare
         (scripted_db [(User_authenticate_sql, [sample_user])])
         (JStr "u1") (JStr "pw") sample_world)
  = Done (Normal (without "password" sample_user)).
Proof.
  apply (proj2 (User_authenticate_accepts sample_compare
                  (scripted_db [(User_authenticate_sql, [sample_user])])
                  (JStr "u1") (JStr "pw") sample_world
                  (without "password" sample_user))).
  exists sample_user, []. repeat split.
Defined.

(** ** The callers of the builder, at their edges *)

(** X13. On a request with no property (and no truthy [password] to
    hash) [User.update] and [Job.update] throw the builder's "No data"
    error and send nothing to the database. *)
Theorem update_empty_request :
  (∀ (bcrypt_hash : JsValue → JsValue → Completion JsValue)
     (BCRYPT_WORK_FACTOR : JsValue)
     (db_response : list (string * list JsValue) → Completion (list JsObject))
     (username : JsValue) (data : loc) (w : World),
     data < next w →
     own (objs w data) = [] →
     truthy (lookup_prop (objs w data) "password") = false →
     snd (User_update bcrypt_hash BCRYPT_WORK_FACTOR db_response
                      username data w)
     = Throw (BadRequestError "No data") ∧
     queries (fst (User_update bcrypt_hash BCRYPT_WORK_FACTOR db_response
                               username data w)) = queries w)
  ∧
  (∀ (db_response : list (string * list JsValue) → Completion (list JsObject))
     (id : JsValue) (data : loc) (w : World),
     data < next w →
     own (objs w data) = [] →
     snd (Job_update db_response id data w)
     = Throw (BadRequestError "No data") ∧
     queries (fst (Job_update db_response id data w)) = queries w).
Proof.
  split.
  - intros bcrypt_hash F db_response username data w Hdata Hown Hpw.
    rewrite (User_update_run bcrypt_hash F db_response username data w
               (objs w)); [|by left|exact Hdata].
    cbv zeta. by rewrite Hown.
  - intros db_response id data w Hdata Hown.
    rewrite (Job_update_run db_response id data w Hdata).
    cbv zeta. by rewrite Hown.
Qed.

Lemma update_empty_request_witness :
  snd (User_update sample_hash (JNum 12) sample_db (JStr "u1") 0
                   (world_of (literal []) (literal [])))
  = Throw (BadRequestError "No data") ∧
  snd (Job_update sample_db (JNum 7) 0 (world_of (literal []) (literal [])))
  = Throw (BadRequestError "No data").
Proof.
  split.
  - apply (proj1 update_empty_request sample_hash (JNum 12) sample_db
             (JStr "u1") 0 (world_of (literal []) (literal []))).
    + simpl. lia.
    + reflexivity.
    + reflexivity.
  - apply (proj2 update_empty_request sample_db (JNum 7) 0
             (world_of (literal []) (literal []))).
    + simpl. lia.
    + reflexivity.
Defined.

(** X14. When the database returns no row for the statement they send,
    [User.update] and [Job.update] throw the not-found error naming the
    identifier (a string, or a number within the safe integers). *)
Theorem update_not_found :
  (∀ (bcrypt_hash : JsValue → JsValue → Completion JsValue)
     (BCRYPT_WORK_FACTOR : JsValue)
     (db_response : list (string * list JsValue) → Completion (list JsObject))
     (username : JsValue) (data : loc) (w : World),
     safe_number username →
     data < next w →
     own (objs w data) ≠ [] →
     (truthy (lookup_prop (objs w data) "password") = true →
      ∃ h, bcrypt_hash (lookup_prop (objs w data) "password")
                       BCRYPT_WORK_FACTOR = Normal h) →
     db_response
       (queries (fst (User_update bcrypt_hash BCRYPT_WORK_FACTOR db_response
                                  username data w))) = Normal [] →
     snd (User_update bcrypt_hash BCRYPT_WORK_FACTOR db_response
                      username data w)
     = Throw (NotFoundError ("No user: " +:+ ToString username)))
  ∧
  (∀ (db_response : list (string * list JsValue) → Completion (list JsObject))
     (id : JsValue) (data : loc) (w : World),
     safe_number id →
     data < next w →
     own (objs w data) ≠ [] →
     db_response (queries (fst (Job_update db_response id data w)))
     = Normal [] →
     snd (Job_update db_response id data w)
     = Throw (NotFoundError ("No job: " +:+ ToString id))).
Proof.
  split.
  - intros bcrypt_hash F db_response username data w _ Hdata Hne Hhash.
    assert (∃ objs1,
              ((truthy (lookup_prop (objs w data) "password") = false ∧
                objs1 = objs w) ∨
               (∃ h, truthy (lookup_prop (objs w data) "password") = true ∧
                     bcrypt_hash (lookup_prop (objs w data) "password") F
                     = Normal h ∧
                     objs1 = store data (with_password (objs w data) h)
                                   (objs w))) ∧
              own (objs1 data) ≠ [])
      as (objs1 & Hstep & Hne1).
    { destruct (truthy (lookup_prop (objs w data) "password")) eqn:Hpw.
      - destruct (Hhash eq_refl) as [h Hh]. eexists. split.
        + right. exists h. repeat split. exact Hh.
        + rewrite store_same. apply with_password_nonempty.
      - exists (objs w). split; [by left|done]. }
    rewrite (User_update_run bcrypt_hash F db_response username data w objs1
               Hstep Hdata).
    destruct (own (objs1 data)) as [|p ps] eqn:Hown; [done|].
    cbn [fst snd queries]. by intros ->.
  - intros db_response id data w _ Hdata Hne.
    rewrite (Job_update_run db_response id data w Hdata).
    destruct (own (objs w data)) as [|p ps] eqn:Hown; [done|].
    cbn [fst snd queries]. by intros ->.
Qed.

Lemma update_not_found_witness :
  snd (User_update sample_hash (JNum 12) sample_db (JStr "u1") 0 sample_world)
  = Throw (NotFoundError "No user: u1") ∧
  snd (Job_update sample_db (JNum 7) 0 sample_world)
  = Throw (NotFoundError "No job: 7").
Proof.
  split.
  - apply (proj1 update_not_found sample_hash (JNum 12) sample_db
             (JStr "u1") 0 sample_world).
    + exact I.
    + simpl. lia.
    + simpl. discriminate.
    + intros _. eexists. reflexivity.
    + reflexivity.
  - apply (proj2 update_not_found sample_db (JNum 7) 0 sample_world).
    + split; reflexivity.
    + simpl. lia.
    + simpl. discriminate.
    + reflexivity.
Defined.

(** ** More on the builder *)

(** X15. Entries of the translation table under keys the request does not
    have are of no effect: on the same request, two tables that read alike
    at every key of the request give the same completion. *)
Theorem sqlForPartialUpdate_unused_entries (w1 w2 : World)
    (d1 m1 d2 m2 : loc) :
  objs w1 d1 = objs w2 d2 →
  (∀ key, key ∈ own_keys (objs w1 d1) →
          lookup_prop (objs w1 m1) key = lookup_prop (objs w2 m2) key) →
  snd (sqlForPartialUpdate d1 m1 w1) = snd (sqlForPartialUpdate d2 m2 w2).
Proof.
  intros Hd Hm. rewrite !sqlForPartialUpdate_run. cbn [snd]. rewrite <- Hd.
  destruct (own (objs w1 d1)) as [|p ps] eqn:Hown; [reflexivity|].
  do 3 f_equal. apply imap_ext. intros i key Hi.
  unfold segment, resolved_column. rewrite Hm; [reflexivity|].
  apply list_elem_of_lookup. by exists i.
Qed.

Lemma sqlForPartialUpdate_unused_entries_witness :
  call_sqlForPartialUpdate (literal [("f1", JStr "v1")])
                           (literal [("f1", JStr "f1"); ("fF2", JStr "f2")])
  = call_sqlForPartialUpdate (literal [("f1", JStr "v1")])
                             (literal [("f1", JStr "f1")]).
Proof.
  apply (sqlForPartialUpdate_unused_entries
           (world_of (literal [("f1", JStr "v1")])
                     (literal [("f1", JStr "f1"); ("fF2", JStr "f2")]))
           (world_of (literal [("f1", JStr "v1")]) (literal [("f1", JStr "f1")]))
           0 1 0 1).
  - reflexivity.
  - intros key Hkey. apply list_elem_of_singleton in Hkey as ->.
    reflexivity.
Defined.

(** X16. A record the builder returns never has an empty clause or an
    empty value list: [setCols] begins with a double quote and [values]
    has a first entry, so a caller never sends [SET] with nothing after
    it. *)
Theorem sqlForPartialUpdate_never_empty (w w' : World)
    (dataToUpdate jsToSql : loc) (frag : SqlFragment) :
  sqlForPartialUpdate dataToUpdate jsToSql w = (w', Normal frag) →
  (∃ rest, setCols frag = String "034" rest) ∧
  (∃ v vs, values frag = v :: vs).
Proof.
  rewrite sqlForPartialUpdate_run.
  destruct (own (objs w dataToUpdate)) as [|[k v] ps] eqn:Hown;
    [discriminate|].
  intros [= _ <-]. cbn [setCols values]. split.
  - unfold own_keys. rewrite Hown, fmap_cons, imap_cons. cbn [fst].
    destruct (imap _ ps.*1) as [|s ss]; eexists; reflexivity.
  - unfold own_values. rewrite Hown, fmap_cons. by eexists _, _.
Qed.

Lemma sqlForPartialUpdate_never_empty_witness :
  ∃ rest,
    setCols {| setCols := quoted "f1" +:+ "=$1"; values := [JStr "v1"] |}
    = String "034" rest.
Proof.
  apply (sqlForPartialUpdate_never_empty
           (world_of (literal [("f1", JStr "v1")]) (literal []))
           (world_of (literal [("f1", JStr "v1")]) (literal []))
           0 1 {| setCols := quoted "f1" +:+ "=$1"; values := [JStr "v1"] |}).
  reflexivity.
Defined.

(** ** middleware/auth.js *)

Lemma ensureAdmin_passes (user : JsAny) (w : World) :
  snd (ensureAdmin user w) = Normal Next ↔
  ∃ l, user = Ref l ∧ truthy (lookup_prop (objs w l) "isAdmin") = true.
Proof.
  unfold ensureAdmin. destruct user as [v|l]; cbn [truthy_any negb].
  - destruct (truthy v); cbn; split; try discriminate;
      intros (l & Hl & _); discriminate Hl.
  - unfold mbind, Js_bind, prop_of, get_prop, mret, Js_ret.
    destruct (truthy (lookup_prop (objs w l) "isAdmin")) eqn:Ha; cbn.
    + split; [intros _; by exists l|done].
    + split; [discriminate|]. intros (l' & [= <-] & Ha').
      rewrite Ha in Ha'. discriminate Ha'.
Qed.

(** X17. The three guards are ordered: a user [ensureAdmin] lets through
    is let through by [ensureCorrectUserOrAdmin] on every route, and a
    user [ensureCorrectUserOrAdmin] lets through is let through by
    [ensureLoggedIn]. *)
Theorem guards_ordered (user : JsAny) (username_param : option string)
    (w : World) :
  (snd (ensureAdmin user w) = Normal Next →
   snd (ensureCorrectUserOrAdmin user username_param w) = Normal Next) ∧
  (snd (ensureCorrectUserOrAdmin user username_param w) = Normal Next →
   snd (ensureLoggedIn user w) = Normal Next).
Proof.
  split.
  - intros (l & -> & Ha)%ensureAdmin_passes.
    unfold ensureCorrectUserOrAdmin, mbind, Js_bind, prop_of, get_prop.
    cbn [truthy_any]. by rewrite Ha.
  - unfold ensureCorrectUserOrAdmin, ensureLoggedIn.
    destruct (truthy_any user); [reflexivity|discriminate].
Qed.

Lemma guards_ordered_witness :
  snd (ensureCorrectUserOrAdmin (Ref 0) (Some "someone")
         (world_of (literal [("username", JStr "a1"); ("isAdmin", JBool true)])
                   (literal []))) = Normal Next.
Proof.
  apply (proj1 (guards_ordered (Ref 0) (Some "someone")
                  (world_of (literal [("username", JStr "a1");
                                      ("isAdmin", JBool true)])
                            (literal [])))).
  reflexivity.
Defined.

(** X18. With no user on the response (a falsy [res.locals.user]) every
    guard calls [next] with the unauthorized error, and the state is
    untouched. *)
Theorem guards_refuse_anonymous (user : JsAny) (username_param : option string)
    (w : World) :
  truthy_any user = false →
  ensureLoggedIn user w = (w, Normal (NextError (UnauthorizedError None))) ∧
  ensureAdmin user w = (w, Normal (NextError (UnauthorizedError None))) ∧
  ensureCorrectUserOrAdmin user username_param w
  = (w, Normal (NextError (UnauthorizedError None))).
Proof.
  intros Hu. unfold ensureLoggedIn, ensureAdmin, ensureCorrectUserOrAdmin.
  by rewrite Hu.
Qed.

Lemma guards_refuse_anonymous_witness :
  ensureAdmin (Prim JUndefined) sample_world
  = (sample_world, Normal (NextError (UnauthorizedError None))).
Proof.
  apply (guards_refuse_anonymous (Prim JUndefined) None sample_world).
  reflexivity.
Defined.

(** X19. For a user who is not an admin and whose [username] is a string,
    [ensureCorrectUserOrAdmin] lets the request through exactly when the
    route's [username] parameter is that same string. *)
Theorem ensureCorrectUserOrAdmin_same_user (l : loc) (name : string)
    (username_param : option string) (w : World) :
  truthy (lookup_prop (objs w l) "isAdmin") = false →
  lookup_prop (objs w l) "username" = JStr name →
  (snd (ensureCorrectUserOrAdmin (Ref l) username_param w) = Normal Next
   ↔ username_param = Some name).
Proof.
  intros Ha Hn.
  unfold ensureCorrectUserOrAdmin, mbind, Js_bind, prop_of, get_prop.
  cbn [truthy_any]. rewrite Ha, Hn. unfold same_as_param.
  destruct username_param as [p|]; [|by split].
  destruct (String.eqb name p) eqn:Hp; cbn.
  - apply String.eqb_eq in Hp as ->. by split.
  - apply String.eqb_neq in Hp. split; [discriminate|]. by intros [= ->].
Qed.

Lemma ensureCorrectUserOrAdmin_same_user_witness :
  snd (ensureCorrectUserOrAdmin (Ref 0) (Some "u1")
         (world_of sample_user (literal []))) = Normal Next ∧
  snd (ensureCorrectUserOrAdmin (Ref 0) (Some "U1")
         (world_of sample_user (literal []))) ≠ Normal Next.
Proof.
  split.
  - apply (ensureCorrectUserOrAdmin_same_user 0 "u1" (Some "u1")
             (world_of sample_user (literal [])));
      reflexivity.
  - intros H.
    apply (ensureCorrectUserOrAdmin_same_user 0 "u1" (Some "U1")
             (world_of sample_user (literal []))) in H;
      [discriminate H|reflexivity|reflexivity].
Defined.

Section MiddlewareFacts.

Variable jwt_verify : string → JsValue → Completion JwtPayload.
Variable SECRET_KEY : JsValue.

(** X20. [authenticateJWT] always calls [next] without an error and sends
    nothing to the database; it leaves [res.locals.user] as it was unless
    the [authorization] header is a non-empty string whose token
    [jwt.verify] accepts. *)
Theorem authenticateJWT_never_fails (headers : option loc) (user : JsAny)
    (w : World) :
  ∃ w' user',
    authenticateJWT jwt_verify SECRET_KEY headers user w
    = (w', Normal (user', Next)) ∧
    queries w' = queries w ∧
    (∀ l, l < next w → objs w' l = objs w l) ∧
    ((user' = user ∧ w' = w) ∨
     ∃ h s payload,
       headers = Some h ∧
       lookup_prop (objs w h) "authorization" = JStr s ∧
       s ≠ EmptyString ∧
       jwt_verify (trim (strip_bearer s)) SECRET_KEY = Normal payload).
Proof.
  unfold authenticateJWT, mbind, Js_bind, mret, Js_ret, get_prop.
  assert (∃ w' user',
            (w, Normal (user, Next)) = (w', Normal (user', Next)) ∧
            queries w' = queries w ∧
            (∀ l, l < next w → objs w' l = objs w l) ∧
            ((user' = user ∧ w' = w) ∨
             ∃ h s payload,
               headers = Some h ∧
               lookup_prop (objs w h) "authorization" = JStr s ∧
               s ≠ EmptyString ∧
               jwt_verify (trim (strip_bearer s)) SECRET_KEY = Normal payload))
    as Hsame.
  { exists w, user. split; [reflexivity|]. split; [reflexivity|].
    split; [done|]. left. by split. }
  destruct headers as [h|]; cbn [truthy]; [|exact Hsame].
  destruct (lookup_prop (objs w h) "authorization") as [| |b|n|s|r] eqn:Hh;
    cbn [truthy]; try exact Hsame.
  { by destruct b. }
  { by destruct (negb (n =? 0)%Z). }
  destruct s as [|c s]; cbn [String.eqb negb]; [exact Hsame|].
  destruct (jwt_verify _ SECRET_KEY) as [[ps|p]|e] eqn:Hv; [| |exact Hsame].
  - unfold new_object. eexists _, _. split; [reflexivity|].
    cbn [queries objs]. split; [reflexivity|]. split.
    + intros l Hl. apply store_other. lia.
    + right. by exists h, (String c s), (PayloadObject ps).
  - eexists _, _. split; [reflexivity|]. split; [reflexivity|].
    split; [done|]. right. by exists h, (String c s), (PayloadString p).
Qed.

(** X21. After [authenticateJWT] has stored the payload of an accepted
    token, [ensureAdmin] lets the request through exactly when the payload
    has a truthy [isAdmin]. *)
Theorem verified_admin (h : loc) (user : JsAny) (w : World) (s : string)
    (ps : list (string * JsValue)) :
  lookup_prop (objs w h) "authorization" = JStr s →
  s ≠ EmptyString →
  jwt_verify (trim (strip_bearer s)) SECRET_KEY = Normal (PayloadObject ps) →
  ∃ w' user',
    authenticateJWT jwt_verify SECRET_KEY (Some h) user w
    = (w', Normal (user', Next)) ∧
    (snd (ensureAdmin user' w') = Normal Next ↔
     truthy (lookup_prop (literal ps) "isAdmin") = true).
Proof.
  intros Hh Hs Hv.
  unfold authenticateJWT, mbind, Js_bind, mret, Js_ret, get_prop.
  rewrite Hh. destruct s as [|c s]; [done|]. cbn [truthy String.eqb negb].
  rewrite Hv. unfold new_object. eexists _, _. split; [reflexivity|].
  rewrite ensureAdmin_passes. cbn [objs]. split.
  - intros (l & [= <-] & Ha). by rewrite store_same in Ha.
  - intros Ha. exists (next w). by rewrite store_same.
Qed.

(** X22. The [Bearer] scheme is optional: a header that holds the token
    alone is treated like one that holds [Bearer] or [bearer], a space and
    the token, as long as the token does not itself begin that way. *)
Theorem bearer_optional (h1 h2 h3 : loc) (user : JsAny) (w : World)
    (token : string) :
  strip_bearer token = token →
  lookup_prop (objs w h1) "authorization" = JStr ("Bearer " +:+ token) →
  lookup_prop (objs w h2) "authorization" = JStr ("bearer " +:+ token) →
  lookup_prop (objs w h3) "authorization" = JStr token →
  token ≠ EmptyString →
  authenticateJWT jwt_verify SECRET_KEY (Some h1) user w
  = authenticateJWT jwt_verify SECRET_KEY (Some h3) user w ∧
  authenticateJWT jwt_verify SECRET_KEY (Some h2) user w
  = authenticateJWT jwt_verify SECRET_KEY (Some h3) user w.
Proof.
  intros Hbare H1 H2 H3 Hne.
  assert (∀ s, String.substring 0 (String.length s) s = s) as Hsub.
  { induction s as [|c s IH]; [reflexivity|]. cbn. by rewrite IH. }
  assert (strip_bearer ("Bearer " +:+ token) = token) as HB.
  { unfold strip_bearer. cbv beta iota delta [String.append]. cbn.
    replace (String.prefix EmptyString token) with true by (by destruct token).
    rewrite Nat.sub_0_r. apply Hsub. }
  assert (strip_bearer ("bearer " +:+ token) = token) as Hb.
  { unfold strip_bearer. cbv beta iota delta [String.append]. cbn.
    replace (String.prefix EmptyString token) with true by (by destruct token).
    rewrite Nat.sub_0_r. apply Hsub. }
  unfold authenticateJWT, mbind, Js_bind, mret, Js_ret, get_prop.
  rewrite H1, H2, H3. destruct token as [|c t]; [done|].
  cbn [truthy String.eqb negb].
  rewrite HB, Hb, Hbare. split; reflexivity.
Qed.

End MiddlewareFacts.

Lemma authenticateJWT_never_fails_witness :
  ∃ w' user',
    authenticateJWT sample_verify (JStr "secret") (Some 2) (Prim JUndefined)
                    {| objs := λ _, literal [("authorization", JStr "Bearer bad")];
                       next := 3; queries := [] |}
    = (w', Normal (user', Next)) ∧ user' = Prim JUndefined.
Proof.
  destruct (authenticateJWT_never_fails sample_verify (JStr "secret")
              (Some 2) (Prim JUndefined)
              {| objs := λ _, literal [("authorization", JStr "Bearer bad")];
                 next := 3; queries := [] |})
    as (w' & user' & Hrun & _ & _ & [[Hu _]|(h & s & payload & [= <-] & Hs & _ & Hv)]).
  - by exists w', user'.
  - injection Hs as <-. discriminate Hv.
Defined.

Lemma verified_admin_witness :
  ∃ w' user',
    authenticateJWT sample_verify (JStr "secret") (Some 0) (Prim JUndefined)
                    sample_headers = (w', Normal (user', Next)) ∧
    snd (ensureAdmin user' w') = Normal Next.
Proof.
  destruct (verified_admin sample_verify (JStr "secret") 0 (Prim JUndefined)
              sample_headers "Bearer t0k3n"
              [("username", JStr "a1"); ("isAdmin", JBool true)])
    as (w' & user' & Hrun & Hadmin).
  - reflexivity.
  - discriminate.
  - reflexivity.
  - exists w', user'. split; [exact Hrun|]. by apply Hadmin.
Defined.

Lemma bearer_optional_witness :
  authenticateJWT sample_verify (JStr "secret") (Some 0) (Prim JUndefined)
                  sample_headers
  = authenticateJWT sample_verify (JStr "secret") (Some 2) (Prim JUndefined)
                    sample_headers.
Proof.
  apply (bearer_optional sample_verify (JStr "secret") 0 1 2 (Prim JUndefined)
           sample_headers "t0k3n"); try reflexivity.
  discriminate.
Defined.

(** ** Job.create *)

(** X23. [Job.create] sends one statement whose four bound values are,
    in this order, what its argument holds under [title], [salary],
    [equity] and [companyHandle] ([undefined] for a key it lacks); nothing
    else of the argument reaches the database, so that an argument which
    reads alike at these four keys sends the same statement; the argument
    is not changed. *)
Theorem Job_create_binds_four
    (db_response : list (string * list JsValue) → Completion (list JsObject))
    (data : loc) (w : World) :
  queries (fst (Job_create db_response data w))
  = queries w ++
    [(Job_create_sql,
      [lookup_prop (objs w data) "title";
       lookup_prop (objs w data) "salary";
       lookup_prop (objs w data) "equity";
       lookup_prop (objs w data) "companyHandle"])] ∧
  objs (fst (Job_create db_response data w)) = objs w ∧
  ∀ (db_response' : list (string * list JsValue) → Completion (list JsObject))
    (data' : loc) (w' : World),
    (∀ key, key ∈ ["title"; "salary"; "equity"; "companyHandle"] →
            lookup_prop (objs w data) key = lookup_prop (objs w' data') key) →
    ∃ statement,
      queries (fst (Job_create db_response data w))
      = queries w ++ [statement] ∧
      queries (fst (Job_create db_response' data' w'))
      = queries w' ++ [statement].
Proof.
  unfold Job_create, mbind, Js_bind, mret, Js_ret, get_prop, db_query.
  split; [by destruct (db_response _)|].
  split; [by destruct (db_response _)|].
  intros db_response' data' w' Hsame.
  rewrite <- !Hsame by (apply list_elem_of_In; simpl; tauto).
  eexists. destruct (db_response _), (db_response' _); split; reflexivity.
Qed.

Lemma Job_create_binds_four_witness :
  ∃ statement,
    queries (fst (Job_create sample_db 0
                    (world_of (literal [("title", JStr "Engineer")])
                              (literal [("title", JStr "Engineer");
                                        ("id", JNum 1)]))))
    = [statement] ∧
    queries (fst (Job_create sample_db 1
                    (world_of (literal [("title", JStr "Engineer")])
                              (literal [("title", JStr "Engineer");
                                        ("id", JNum 1)]))))
    = [statement] ∧
    snd statement = [JStr "Engineer"; JUndefined; JUndefined; JUndefined].
Proof.
  destruct (Job_create_binds_four sample_db 0
              (world_of (literal [("title", JStr "Engineer")])
                        (literal [("title", JStr "Engineer"); ("id", JNum 1)])))
    as (Hsent & _ & Hsame).
  destruct (Hsame sample_db 1
              (world_of (literal [("title", JStr "Engineer")])
                        (literal [("title", JStr "Engineer"); ("id", JNum 1)])))
    as (statement & H1 & H2).
  - intros key Hkey.
    repeat (apply elem_of_cons in Hkey as [->|Hkey]; [reflexivity|]).
    by apply not_elem_of_nil in Hkey.
  - exists statement. split; [exact H1|]. split; [exact H2|].
    rewrite Hsent in H1. by injection H1 as <-.
Defined.


Lemma Job_findAll_hasEquity_witness :
  ∃ sql params,
    queries (fst (Job_findAll sample_db (Some 0)
                    (world_of (literal [("hasEquity", JBool true)])
                              (literal []))))
    = [(sql, params)] ∧
    contains "equity > 0" sql = true.
Proof.
  destruct (Job_findAll_hasEquity sample_db 0
              (world_of (literal [("hasEquity", JBool true)]) (literal [])))
    as (sql & params & Hsent & Hiff).
  exists sql, params. split; [exact Hsent|]. by apply Hiff.
Defined.
